(** * Chaincode lifecycle: definitions, approvals and commits

    A shallow embedding of [core/chaincode/lifecycle/lifecycle.go].

    Conventions of the embedding:
    - a Go [int64] is a [Z]; the one arithmetic operation of the file,
      [currentSequence+1], is written with its two's complement wrap-around
      ([add64]);
    - a Go [[]byte] is a [list byte]; where the code tests a slice against
      [nil] the value is an [option (list byte)];
    - a Go pair [(v, err)] is a [result]: [Err e] when [err != nil];
      a lone [error] is an [option error] ([None] is [nil]);
    - a state object that the code mutates through an interface is threaded
      explicitly: a call that may write returns the state after the call,
      also when it fails;
    - the serializer, the chaincode store, the package parser and the install
      listener are interfaces whose implementations live outside this file:
      they are type classes, and the properties of the lifecycle functions are
      proved for every implementation. *)

From Stdlib Require Import ZArith String Ascii Lia.
From Stdlib.Strings Require Import Byte.
From stdpp Require Import base option list gmap strings pretty.

(** ** Go values *)

Inductive error : Type :=
  | Errorf (msg : string)
  | WithMessage (cause : error) (msg : string).

Inductive result (A : Type) : Type :=
  | Ok (a : A)
  | Err (e : error).
Arguments Ok {A} a.
Arguments Err {A} e.

Definition is_Ok {A} (r : result A) : bool :=
  match r with Ok _ => true | Err _ => false end.

#[global] Instance error_eq_dec : EqDecision error.
Proof. solve_decision. Defined.

#[global] Instance result_eq_dec {A} `{!EqDecision A} : EqDecision (result A).
Proof. solve_decision. Defined.

#[global] Instance byte_eq_decision : EqDecision byte := Byte.byte_eq_dec.

Definition int64_min : Z := (- 2 ^ 63)%Z.
Definition int64_max : Z := (2 ^ 63 - 1)%Z.

Definition int64_range (z : Z) : Prop := (int64_min <= z <= int64_max)%Z.

Definition wrap64 (z : Z) : Z := ((z + 2 ^ 63) mod 2 ^ 64 - 2 ^ 63)%Z.

(** [a + b] on [int64] operands. *)
Definition add64 (a b : Z) : Z := wrap64 (a + b).

(** The verb [%d] of [fmt] on an integer. *)
Definition fmt_d (z : Z) : string := pretty z.

Definition hex_digit (n : N) : ascii :=
  match n with
  | 0 => "0" | 1 => "1" | 2 => "2" | 3 => "3" | 4 => "4" | 5 => "5"
  | 6 => "6" | 7 => "7" | 8 => "8" | 9 => "9" | 10 => "a" | 11 => "b"
  | 12 => "c" | 13 => "d" | 14 => "e" | _ => "f"
  end%N%char.

(** The verb [%x] of [fmt] on a byte slice. *)
Fixpoint fmt_x (bs : list byte) : string :=
  match bs with
  | [] => EmptyString
  | b :: bs =>
      let n := Byte.to_N b in
      String (hex_digit (n / 16)) (String (hex_digit (n mod 16)) (fmt_x bs))
  end.

(** [bytes.Equal]: a nil slice and an empty slice are both [[]]. *)
Definition bytes_Equal (a b : list byte) : bool := bool_decide (a = b).

(** ** Constants *)

Definition NamespacesName : string := "namespaces".
Definition ChaincodeSourcesName : string := "chaincode-sources".
Definition ChaincodeDefinitionType : string := "ChaincodeDefinition".
Definition FriendlyChaincodeDefinitionType : string := "Chaincode".

(** ** Records *)

(** Modelled from the spec: the message [lb.ChaincodeEndorsementInfo] is
    declared in the protobuf package; its fields are the ones the layout
    comment of the file lists and the code reads. *)
Record ChaincodeEndorsementInfo : Type := {
  Version : string;
  InitRequired : bool;
  EndorsementPlugin : string
}.

(** Modelled from the spec: the message [lb.ChaincodeValidationInfo], with
    the validation plugin name and the opaque validation parameter. *)
Record ChaincodeValidationInfo : Type := {
  ValidationPlugin : string;
  ValidationParameter : list byte
}.

(** Modelled from the spec: the message [lb.StateMetadata], the type tag of a
    stored record and the names of its fields. *)
Record StateMetadata : Type := {
  Datatype : string;
  Fields : list string
}.

Record ChaincodeLocalPackage : Type := {
  Hash : list byte
}.

(** [CCP] stands for [cb.CollectionConfigPackage], a protobuf message declared
    elsewhere.  The pointer field [Collections] may be nil (it is in the
    definition synthesised for the lifecycle namespace), hence the [option].
    The two info fields are never nil in an initialised instance, as the
    comment on the Go type requires. *)
Record ChaincodeParameters (CCP : Type) : Type := {
  cp_EndorsementInfo : ChaincodeEndorsementInfo;
  cp_ValidationInfo : ChaincodeValidationInfo;
  cp_Collections : option CCP
}.
Arguments cp_EndorsementInfo {CCP} _.
Arguments cp_ValidationInfo {CCP} _.
Arguments cp_Collections {CCP} _.

Record ChaincodeDefinition (CCP : Type) : Type := {
  Sequence : Z;
  cd_EndorsementInfo : ChaincodeEndorsementInfo;
  cd_ValidationInfo : ChaincodeValidationInfo;
  cd_Collections : option CCP
}.
Arguments Sequence {CCP} _.
Arguments cd_EndorsementInfo {CCP} _.
Arguments cd_ValidationInfo {CCP} _.
Arguments cd_Collections {CCP} _.

(** The values the code passes to the serializer as [interface{}]. *)
Inductive Serializable (CCP : Type) : Type :=
  | SDefinition (cd : ChaincodeDefinition CCP)
  | SParameters (cp : ChaincodeParameters CCP)
  | SLocalPackage (lp : ChaincodeLocalPackage).
Arguments SDefinition {CCP} cd.
Arguments SParameters {CCP} cp.
Arguments SLocalPackage {CCP} lp.

(** [persistence.ChaincodePackage]; [MD] stands for the metadata pointer the
    parser fills in. *)
Record ChaincodePackage (MD : Type) : Type := {
  Metadata : MD;
  CodePackage : list byte
}.
Arguments Metadata {MD} _.
Arguments CodePackage {MD} _.

(** ** Interfaces *)

(** The methods of [*Serializer] that the lifecycle calls.  [St] is a state
    seen through [ReadableState], [ReadWritableState] or [RangeableState];
    [OSt] is a state seen through [OpaqueState].  The reading methods take a
    read-only view and are functions of the state; [Serialize] returns the
    state it leaves behind together with its error. *)
Class Serializer (CCP St OSt : Type) : Type := {
  DeserializeFieldAsInt64 : string → string → string → St → result Z;
  DeserializeMetadata : string → string → St → result (option StateMetadata);
  Deserialize :
    string → string → StateMetadata → St → result (ChaincodeDefinition CCP);
  DeserializeAllMetadata : string → St → result (gmap string StateMetadata);
  IsSerialized : string → string → Serializable CCP → OSt → result bool;
  Serialize : string → string → Serializable CCP → St → St * option error
}.

Class ChaincodeStore (CS : Type) : Type := {
  Save : string → string → list byte → CS → CS * result (list byte)
}.

Class PackageParser (MD : Type) : Type := {
  Parse : list byte → result (ChaincodePackage MD)
}.

Class InstallListener (MD L : Type) : Type := {
  HandleChaincodeInstalled : MD → list byte → L → L
}.

(** ** The lifecycle *)

Section Lifecycle.

Context {CCP : Type} `{!EqDecision CCP}.
Context {St OSt : Type} `{!Serializer CCP St OSt}.
Context {CS MD L : Type} `{!ChaincodeStore CS} `{!PackageParser MD}.

(** The constant [LifecycleNamespace] is declared in another file of the
    package. *)
Variable LifecycleNamespace : string.

Definition Parameters (cd : ChaincodeDefinition CCP) : ChaincodeParameters CCP :=
  {| cp_EndorsementInfo := cd_EndorsementInfo cd;
     cp_ValidationInfo := cd_ValidationInfo cd;
     cp_Collections := cd_Collections cd |}.

(** [proto.Equal] on two collection packages: both nil, or both present and
    structurally equal. *)
Definition proto_Equal (a b : option CCP) : bool := bool_decide (a = b).

Definition ChaincodeParameters_Equal (cp ocp : ChaincodeParameters CCP)
  : option error :=
  if negb (String.eqb (Version (cp_EndorsementInfo cp))
                      (Version (cp_EndorsementInfo ocp))) then
    Some (Errorf ("Version '" +:+ Version (cp_EndorsementInfo cp) +:+ "' != '"
                  +:+ Version (cp_EndorsementInfo ocp) +:+ "'"))
  else if negb (String.eqb (EndorsementPlugin (cp_EndorsementInfo cp))
                           (EndorsementPlugin (cp_EndorsementInfo ocp))) then
    Some (Errorf ("EndorsementPlugin '"
                  +:+ EndorsementPlugin (cp_EndorsementInfo cp) +:+ "' != '"
                  +:+ EndorsementPlugin (cp_EndorsementInfo ocp) +:+ "'"))
  else if negb (String.eqb (ValidationPlugin (cp_ValidationInfo cp))
                           (ValidationPlugin (cp_ValidationInfo ocp))) then
    Some (Errorf ("ValidationPlugin '"
                  +:+ ValidationPlugin (cp_ValidationInfo cp) +:+ "' != '"
                  +:+ ValidationPlugin (cp_ValidationInfo ocp) +:+ "'"))
  else if negb (bytes_Equal (ValidationParameter (cp_ValidationInfo cp))
                            (ValidationParameter (cp_ValidationInfo ocp))) then
    Some (Errorf ("ValidationParameter '"
                  +:+ fmt_x (ValidationParameter (cp_ValidationInfo cp))
                  +:+ "' != '"
                  +:+ fmt_x (ValidationParameter (cp_ValidationInfo ocp))
                  +:+ "'"))
  else if negb (proto_Equal (cp_Collections cp) (cp_Collections ocp)) then
    Some (Errorf "Collections do not match")
  else None.

Definition ChaincodeDefinitionIfDefined (chaincodeName : string) (state : St)
  : bool * option (ChaincodeDefinition CCP) * option error :=
  if String.eqb chaincodeName LifecycleNamespace then
    (true,
     Some {| Sequence := 0;
             cd_EndorsementInfo :=
               {| Version := EmptyString; InitRequired := false;
                  EndorsementPlugin := EmptyString |};
             cd_ValidationInfo :=
               {| ValidationPlugin := EmptyString; ValidationParameter := [] |};
             cd_Collections := None |},
     None)
  else
    match DeserializeMetadata NamespacesName chaincodeName state with
    | Err err =>
        (false, None,
         Some (WithMessage err
                 ("could not deserialize metadata for chaincode "
                  +:+ chaincodeName)))
    | Ok None => (false, None, None)
    | Ok (Some metadata) =>
        if negb (String.eqb (Datatype metadata) ChaincodeDefinitionType) then
          (false, None,
           Some (Errorf ("not a chaincode type: " +:+ Datatype metadata)))
        else
          match Deserialize NamespacesName chaincodeName metadata state with
          | Err err =>
              (false, None,
               Some (WithMessage err
                       ("could not deserialize chaincode definition for chaincode "
                        +:+ chaincodeName)))
          | Ok definedChaincode => (true, Some definedChaincode, None)
          end
    end.

(** The loop [for i, orgState := range orgStates] of
    [CommitChaincodeDefinition]; [i] is the index of the head of
    [orgStates]. *)
Fixpoint agreement_loop (privateName : string) (cp : ChaincodeParameters CCP)
    (i : nat) (orgStates : list OSt) (agreement : list bool) : list bool :=
  match orgStates with
  | [] => agreement
  | orgState :: orgStates =>
      let agreement :=
        match IsSerialized NamespacesName privateName (SParameters cp) orgState with
        | Ok match_ => <[i := match_]> agreement
        | Err _ => <[i := false]> agreement
        end in
      agreement_loop privateName cp (S i) orgStates agreement
  end.

Definition CommitChaincodeDefinition (name : string)
    (cd : ChaincodeDefinition CCP) (publicState : St) (orgStates : list OSt)
  : St * result (list bool) :=
  match DeserializeFieldAsInt64 NamespacesName name "Sequence" publicState with
  | Err err =>
      (publicState, Err (WithMessage err "could not get current sequence"))
  | Ok currentSequence =>
      if negb (Z.eqb (Sequence cd) (add64 currentSequence 1)) then
        (publicState,
         Err (Errorf ("requested sequence is " +:+ fmt_d (Sequence cd)
                      +:+ ", but new definition must be sequence "
                      +:+ fmt_d (add64 currentSequence 1))))
      else
        let agreement := replicate (length orgStates) false in
        let privateName := name +:+ "#" +:+ fmt_d (Sequence cd) in
        let agreement :=
          agreement_loop privateName (Parameters cd) 0 orgStates agreement in
        match Serialize NamespacesName name (SDefinition cd) publicState with
        | (publicState, Some err) =>
            (publicState,
             Err (WithMessage err "could not serialize chaincode definition"))
        | (publicState, None) => (publicState, Ok agreement)
        end
  end.

Definition ApproveChaincodeDefinitionForOrg (name : string)
    (cd : ChaincodeDefinition CCP) (localPackageHash : option (list byte))
    (publicState : St) (orgState : St) : St * option error :=
  match DeserializeFieldAsInt64 NamespacesName name "Sequence" publicState with
  | Err err =>
      (orgState, Some (WithMessage err "could not get current sequence"))
  | Ok currentSequence =>
      let requestedSequence := Sequence cd in
      if Z.eqb currentSequence requestedSequence && Z.eqb requestedSequence 0
      then
        (orgState,
         Some (Errorf
           "requested sequence is 0, but first definable sequence number is 1"))
      else if Z.ltb requestedSequence currentSequence then
        (orgState,
         Some (Errorf ("currently defined sequence " +:+ fmt_d currentSequence
                       +:+ " is larger than requested sequence "
                       +:+ fmt_d requestedSequence)))
      else if Z.gtb requestedSequence (add64 currentSequence 1) then
        (orgState,
         Some (Errorf ("requested sequence " +:+ fmt_d requestedSequence
                       +:+ " is larger than the next available sequence number "
                       +:+ fmt_d (add64 currentSequence 1))))
      else
        let current_check : option error :=
          if Z.eqb requestedSequence currentSequence then
            match DeserializeMetadata NamespacesName name publicState with
            | Err err =>
                Some (WithMessage err
                        "could not fetch metadata for current definition")
            | Ok None =>
                Some (Errorf
                  ("missing metadata for currently committed sequence number ("
                   +:+ fmt_d currentSequence +:+ ")"))
            | Ok (Some metadata) =>
                match Deserialize NamespacesName name metadata publicState with
                | Err err =>
                    Some (WithMessage err
                            ("could not deserialize namespace " +:+ name
                             +:+ " as chaincode"))
                | Ok definedChaincode =>
                    match ChaincodeParameters_Equal
                            (Parameters definedChaincode) (Parameters cd) with
                    | Some err =>
                        Some (WithMessage err
                          "attempted to define the current sequence (%d) for namespace %s, but")
                    | None => None
                    end
                end
            end
          else None in
        match current_check with
        | Some err => (orgState, Some err)
        | None =>
            let privateName := name +:+ "#" +:+ fmt_d requestedSequence in
            match Serialize NamespacesName privateName
                    (SParameters (Parameters cd)) orgState with
            | (orgState, Some err) =>
                (orgState,
                 Some (WithMessage err
                         "could not serialize chaincode parameters to state"))
            | (orgState, None) =>
                match localPackageHash with
                | Some hash =>
                    match Serialize ChaincodeSourcesName privateName
                            (SLocalPackage {| Hash := hash |}) orgState with
                    | (orgState, Some err) =>
                        (orgState,
                         Some (WithMessage err
                           "could not serialize chaincode package info to state"))
                    | (orgState, None) => (orgState, None)
                    end
                | None => (orgState, None)
                end
            end
        end
  end.

Definition QueryChaincodeDefinition (name : string) (publicState : St)
  : result (ChaincodeDefinition CCP) :=
  match DeserializeMetadata NamespacesName name publicState with
  | Err err =>
      Err (WithMessage err ("could not fetch metadata for namespace " +:+ name))
  | Ok None => Err (Errorf ("namespace " +:+ name +:+ " is not defined"))
  | Ok (Some metadata) =>
      match Deserialize NamespacesName name metadata publicState with
      | Err err =>
          Err (WithMessage err
                 ("could not deserialize namespace " +:+ name +:+ " as chaincode"))
      | Ok definedChaincode => Ok definedChaincode
      end
  end.

(** [ef.InstallListener] is a nullable interface value: [None] is nil.  The
    store and the listener are the two objects the call can act on. *)
Definition InstallChaincode (listener : option (InstallListener MD L))
    (name version : string) (chaincodeInstallPackage : list byte)
    (store : CS) (observed : L) : CS * L * result (list byte) :=
  match Parse chaincodeInstallPackage with
  | Err err =>
      (store, observed,
       Err (WithMessage err "could not parse as a chaincode install package"))
  | Ok pkg =>
      match Save name version chaincodeInstallPackage store with
      | (store, Err err) =>
          (store, observed,
           Err (WithMessage err "could not save cc install package"))
      | (store, Ok hash) =>
          let observed :=
            match listener with
            | Some l => @HandleChaincodeInstalled MD L l (Metadata pkg) hash observed
            | None => observed
            end in
          (store, observed, Ok hash)
      end
  end.

(** The body of the loop of [QueryNamespaceDefinitions]. *)
Definition namespace_entry (key : string) (value : StateMetadata)
    (result : gmap string string) : gmap string string :=
  if String.eqb (Datatype value) ChaincodeDefinitionType then
    <[key := FriendlyChaincodeDefinitionType]> result
  else
    <[key := Datatype value]> result.

Definition QueryNamespaceDefinitions (publicState : St)
  : result (gmap string string) :=
  match DeserializeAllMetadata NamespacesName publicState with
  | Err err => Err (WithMessage err "could not query namespace metadata")
  | Ok metadatas => Ok (map_fold namespace_entry ∅ metadatas)
  end.

(** ** Vocabulary of the specification *)

(** The comparison the spec calls structural equality of parameters: equal
    version, endorsement plugin and validation plugin strings, equal
    validation parameter bytes, equal collections. *)
Definition parameters_agree (cp ocp : ChaincodeParameters CCP) : Prop :=
  Version (cp_EndorsementInfo cp) = Version (cp_EndorsementInfo ocp)
  ∧ EndorsementPlugin (cp_EndorsementInfo cp)
    = EndorsementPlugin (cp_EndorsementInfo ocp)
  ∧ ValidationPlugin (cp_ValidationInfo cp)
    = ValidationPlugin (cp_ValidationInfo ocp)
  ∧ ValidationParameter (cp_ValidationInfo cp)
    = ValidationParameter (cp_ValidationInfo ocp)
  ∧ cp_Collections cp = cp_Collections ocp.

(** The spec's agreement of one organisation: the read of its private entry
    succeeded and the stored parameters equal the proposed ones. *)
Definition agrees (privateName : string) (cp : ChaincodeParameters CCP)
    (orgState : OSt) : bool :=
  bool_decide
    (IsSerialized NamespacesName privateName (SParameters cp) orgState = Ok true).

(** The spec's label of a namespace: the friendly name of a chaincode
    definition, any other type tag verbatim. *)
Definition friendly_name (value : StateMetadata) : string :=
  if bool_decide (Datatype value = ChaincodeDefinitionType)
  then FriendlyChaincodeDefinitionType else Datatype value.

(** The key of an approval in an organisation's private scope. *)
Definition private_name (name : string) (sequence : Z) : string :=
  name +:+ "#" +:+ fmt_d sequence.

(** The spec's writes of an accepted approval: the parameters under
    [name#sequence] in the namespaces scope and then, if a package hash is
    supplied, the package record at the same key in the chaincode-sources
    scope. *)
Definition approval_writes (name : string) (cd : ChaincodeDefinition CCP)
    (localPackageHash : option (list byte)) (orgState : St) : St * option error :=
  match Serialize NamespacesName (private_name name (Sequence cd))
          (SParameters (Parameters cd)) orgState with
  | (orgState, Some err) => (orgState, Some err)
  | (orgState, None) =>
      match localPackageHash with
      | Some hash =>
          Serialize ChaincodeSourcesName (private_name name (Sequence cd))
            (SLocalPackage {| Hash := hash |}) orgState
      | None => (orgState, None)
      end
  end.

(** The two error returns of [ApproveChaincodeDefinitionForOrg] that follow a
    call of [Serialize] on the organisation's state. *)
Definition is_write_error (err : error) : bool :=
  match err with
  | WithMessage _ msg =>
      bool_decide (msg = "could not serialize chaincode parameters to state")
      || bool_decide (msg = "could not serialize chaincode package info to state")
  | Errorf _ => false
  end.

End Lifecycle.

(** ** A reference implementation of the interfaces

    The lifecycle is proved correct for every implementation of its
    interfaces.  Concrete runs need one: an in-memory key-value state with the
    key layout described at the head of the Go file, and recording fakes for
    the store, the parser and the listener. *)

#[global] Instance ChaincodeEndorsementInfo_eq_dec :
  EqDecision ChaincodeEndorsementInfo.
Proof. solve_decision. Defined.

#[global] Instance ChaincodeValidationInfo_eq_dec :
  EqDecision ChaincodeValidationInfo.
Proof. solve_decision. Defined.

#[global] Instance StateMetadata_eq_dec : EqDecision StateMetadata.
Proof. solve_decision. Defined.

(** Modelled from the spec: the value of one state entry.  The serializer is
    not part of this file; the spec fixes the operations it exposes and the
    Go file documents the layout (one metadata entry and one entry per
    field).  Entries are kept as typed data instead of marshalled bytes. *)
Inductive StateData (CCP : Type) : Type :=
  | DMetadata (md : StateMetadata)
  | DInt64 (z : Z)
  | DBytes (bs : list byte)
  | DEndorsementInfo (e : ChaincodeEndorsementInfo)
  | DValidationInfo (v : ChaincodeValidationInfo)
  | DCollections (c : option CCP).
Arguments DMetadata {CCP} md.
Arguments DInt64 {CCP} z.
Arguments DBytes {CCP} bs.
Arguments DEndorsementInfo {CCP} e.
Arguments DValidationInfo {CCP} v.
Arguments DCollections {CCP} c.

#[global] Instance StateData_eq_dec {CCP} `{!EqDecision CCP} :
  EqDecision (StateData CCP).
Proof. solve_decision. Defined.

(** Modelled from the spec: the key-value state abstraction (get and put by
    key, iteration over the keys of a namespace).  Every access of the Go
    interfaces can report an error: [faulty] is the set of keys on which this
    state does. *)
Record KVState (CCP : Type) : Type := {
  entries : gmap string (StateData CCP);
  faulty : gset string
}.
Arguments entries {CCP} _.
Arguments faulty {CCP} _.

Section Memory.

Context {CCP : Type} `{!EqDecision CCP}.

Definition GetState (key : string) (st : KVState CCP)
  : result (option (StateData CCP)) :=
  if bool_decide (key ∈ faulty st) then
    Err (Errorf ("could not get state for key " +:+ key))
  else Ok (entries st !! key).

Definition PutState (key : string) (value : StateData CCP) (st : KVState CCP)
  : KVState CCP * option error :=
  if bool_decide (key ∈ faulty st) then
    (st, Some (Errorf ("could not put state for key " +:+ key)))
  else ({| entries := <[key := value]> (entries st); faulty := faulty st |}, None).

Definition MetadataKey (namespace name : string) : string :=
  namespace +:+ "/metadata/" +:+ name.

Definition FieldKey (namespace name field : string) : string :=
  namespace +:+ "/fields/" +:+ name +:+ "/" +:+ field.

Definition type_name (s : Serializable CCP) : string :=
  match s with
  | SDefinition _ => "ChaincodeDefinition"
  | SParameters _ => "ChaincodeParameters"
  | SLocalPackage _ => "ChaincodeLocalPackage"
  end.

Definition field_values (s : Serializable CCP) : list (string * StateData CCP) :=
  match s with
  | SDefinition cd =>
      [("Sequence", DInt64 (Sequence cd));
       ("EndorsementInfo", DEndorsementInfo (cd_EndorsementInfo cd));
       ("ValidationInfo", DValidationInfo (cd_ValidationInfo cd));
       ("Collections", DCollections (cd_Collections cd))]
  | SParameters cp =>
      [("EndorsementInfo", DEndorsementInfo (cp_EndorsementInfo cp));
       ("ValidationInfo", DValidationInfo (cp_ValidationInfo cp));
       ("Collections", DCollections (cp_Collections cp))]
  | SLocalPackage lp => [("Hash", DBytes (Hash lp))]
  end.

Definition metadata_of (s : Serializable CCP) : StateMetadata :=
  {| Datatype := type_name s; Fields := (field_values s).*1 |}.

Fixpoint put_fields (namespace name : string)
    (fields : list (string * StateData CCP)) (st : KVState CCP)
  : KVState CCP * option error :=
  match fields with
  | [] => (st, None)
  | (field, value) :: fields =>
      match PutState (FieldKey namespace name field) value st with
      | (st, Some err) => (st, Some err)
      | (st, None) => put_fields namespace name fields st
      end
  end.

(** Modelled from the spec: [Serialize(namespace, key, record, state)] writes
    one entry per field and the metadata entry with the type tag. *)
Definition kv_Serialize (namespace name : string) (s : Serializable CCP)
    (st : KVState CCP) : KVState CCP * option error :=
  match put_fields namespace name (field_values s) st with
  | (st, Some err) => (st, Some (WithMessage err "could not write field"))
  | (st, None) => PutState (MetadataKey namespace name) (DMetadata (metadata_of s)) st
  end.

(** Modelled from the spec: [DeserializeMetadata] reports absence through its
    [found] flag, not as an error. *)
Definition kv_DeserializeMetadata (namespace name : string) (st : KVState CCP)
  : result (option StateMetadata) :=
  match GetState (MetadataKey namespace name) st with
  | Err err => Err err
  | Ok None => Ok None
  | Ok (Some (DMetadata md)) => Ok (Some md)
  | Ok (Some _) => Err (Errorf "could not unmarshal metadata")
  end.

(** Modelled from the spec: a pre-typed [int64] field, 0 when absent. *)
Definition kv_DeserializeFieldAsInt64 (namespace name field : string)
    (st : KVState CCP) : result Z :=
  match GetState (FieldKey namespace name field) st with
  | Err err => Err err
  | Ok None => Ok 0%Z
  | Ok (Some (DInt64 z)) => Ok z
  | Ok (Some _) => Err (Errorf "expected a value of type Int64")
  end.

(** Modelled from the spec: [Deserialize] fills a [ChaincodeDefinition] from
    the field entries; a record stored under another type tag, or a missing
    or ill-typed field, is an error. *)
Definition kv_Deserialize (namespace name : string) (metadata : StateMetadata)
    (st : KVState CCP) : result (ChaincodeDefinition CCP) :=
  if negb (String.eqb (Datatype metadata) ChaincodeDefinitionType) then
    Err (Errorf ("type name mismatch: " +:+ Datatype metadata))
  else
    match GetState (FieldKey namespace name "Sequence") st,
          GetState (FieldKey namespace name "EndorsementInfo") st,
          GetState (FieldKey namespace name "ValidationInfo") st,
          GetState (FieldKey namespace name "Collections") st with
    | Ok (Some (DInt64 z)), Ok (Some (DEndorsementInfo e)),
      Ok (Some (DValidationInfo v)), Ok (Some (DCollections c)) =>
        Ok {| Sequence := z; cd_EndorsementInfo := e;
              cd_ValidationInfo := v; cd_Collections := c |}
    | _, _, _, _ => Err (Errorf "could not decode the fields of the record")
    end.

Fixpoint strip_prefix (prefix s : string) : option string :=
  match prefix with
  | EmptyString => Some s
  | String a prefix =>
      match s with
      | String b s => if Ascii.eqb a b then strip_prefix prefix s else None
      | EmptyString => None
      end
  end.

Definition collect_metadata (namespace : string) (st : KVState CCP)
    (key : string) (value : StateData CCP)
    (acc : result (gmap string StateMetadata))
  : result (gmap string StateMetadata) :=
  match strip_prefix (MetadataKey namespace EmptyString) key with
  | None => acc
  | Some name =>
      match acc, GetState key st with
      | Ok m, Ok (Some (DMetadata md)) => Ok (<[name := md]> m)
      | Ok _, Err err => Err err
      | Ok _, Ok _ => Err (Errorf "could not unmarshal metadata")
      | Err err, _ => Err err
      end
  end.

(** Modelled from the spec: [DeserializeAllMetadata] ranges over the metadata
    entries of a namespace. *)
Definition kv_DeserializeAllMetadata (namespace : string) (st : KVState CCP)
  : result (gmap string StateMetadata) :=
  map_fold (collect_metadata namespace st) (Ok ∅) (entries st).

Fixpoint fields_match (namespace name : string)
    (fields : list (string * StateData CCP)) (st : KVState CCP) : result bool :=
  match fields with
  | [] => Ok true
  | (field, value) :: fields =>
      match GetState (FieldKey namespace name field) st with
      | Err err => Err err
      | Ok stored =>
          if bool_decide (stored = Some value)
          then fields_match namespace name fields st
          else Ok false
      end
  end.

(** Modelled from the spec: [IsSerialized] tests whether the stored record
    equals the candidate; an absent or different record is a plain [false].
    The opaque view exposes digests of the entries; digests are taken to be
    injective, so the entries themselves are compared. *)
Definition kv_IsSerialized (namespace name : string) (s : Serializable CCP)
    (st : KVState CCP) : result bool :=
  match GetState (MetadataKey namespace name) st with
  | Err err => Err err
  | Ok stored =>
      if bool_decide (stored = Some (DMetadata (metadata_of s)))
      then fields_match namespace name (field_values s) st
      else Ok false
  end.

(** The keys of the entries that make up a stored record. *)
Definition written_keys (namespace name : string) (s : Serializable CCP)
  : list string :=
  MetadataKey namespace name :: (FieldKey namespace name <$> (field_values s).*1).

#[global] Instance KVSerializer : Serializer CCP (KVState CCP) (KVState CCP) := {|
  DeserializeFieldAsInt64 := kv_DeserializeFieldAsInt64;
  DeserializeMetadata := kv_DeserializeMetadata;
  Deserialize := kv_Deserialize;
  DeserializeAllMetadata := kv_DeserializeAllMetadata;
  IsSerialized := kv_IsSerialized;
  Serialize := kv_Serialize
|}.

End Memory.

(** Modelled from the spec: a package store with the contract
    [Save(name, version, packageBytes) (hash, error)], in the manner of the
    generated test fakes: it answers every [Save] with a preset result and
    records the arguments of the call. *)
Record FakeStore : Type := {
  SaveReturns : result (list byte);
  SaveCalls : list (string * string * list byte)
}.

#[global] Instance FakeChaincodeStore : ChaincodeStore FakeStore := {|
  Save name version pkg store :=
    ({| SaveReturns := SaveReturns store;
        SaveCalls := SaveCalls store ++ [(name, version, pkg)] |},
     SaveReturns store)
|}.

(** Modelled from the spec: a parser that performs a structural check only.
    Here a package is well formed when it is not empty, and its metadata is
    its first byte. *)
#[global] Instance FakeParser : PackageParser byte := {|
  Parse data :=
    match data with
    | [] => Err (Errorf "empty package")
    | b :: _ => Ok {| Metadata := b; CodePackage := data |}
    end
|}.

(** Modelled from the spec: a listener that records each notification. *)
Definition RecordingListener (MD : Type)
  : InstallListener MD (list (MD * list byte)) := {|
  HandleChaincodeInstalled md hash log := log ++ [(md, hash)]
|}.

(** ** The lifecycle, continued: installed chaincodes and derived notions *)

(** The reading methods of the [ChaincodeStore] interface that the lifecycle
    calls.  [IC] stands for [chaincode.InstalledChaincode], declared in
    another package. *)
Class ChaincodeStoreReader (CS IC : Type) : Type := {
  RetrieveHash : string → CS → result (list byte);
  ListInstalledChaincodes : CS → result (list IC)
}.

Section Installed.

Context {CS IC : Type} `{!ChaincodeStoreReader CS IC}.

(** [ccintf.CCID] is a string type; the conversion is the identity. *)
Definition QueryInstalledChaincode (name version : string) (store : CS)
  : result (list byte) :=
  match RetrieveHash (name +:+ ":" +:+ version) store with
  | Err err =>
      Err (WithMessage err
             ("could not retrieve hash for chaincode '" +:+ name +:+ ":"
              +:+ version +:+ "'"))
  | Ok hash => Ok hash
  end.

Definition QueryInstalledChaincodes (store : CS) : result (list IC) :=
  ListInstalledChaincodes store.

End Installed.

Section Derived.

Context {CCP : Type} `{!EqDecision CCP}.
Context {St OSt : Type} `{!Serializer CCP St OSt}.

(** A copy of the parameters with another [InitRequired] flag. *)
Definition parameters_with_InitRequired (b : bool)
    (cp : ChaincodeParameters CCP) : ChaincodeParameters CCP :=
  {| cp_EndorsementInfo :=
       {| Version := Version (cp_EndorsementInfo cp);
          InitRequired := b;
          EndorsementPlugin := EndorsementPlugin (cp_EndorsementInfo cp) |};
     cp_ValidationInfo := cp_ValidationInfo cp;
     cp_Collections := cp_Collections cp |}.

(** A copy of the definition with another [InitRequired] flag. *)
Definition definition_with_InitRequired (b : bool)
    (cd : ChaincodeDefinition CCP) : ChaincodeDefinition CCP :=
  {| Sequence := Sequence cd;
     cd_EndorsementInfo :=
       {| Version := Version (cd_EndorsementInfo cd);
          InitRequired := b;
          EndorsementPlugin := EndorsementPlugin (cd_EndorsementInfo cd) |};
     cd_ValidationInfo := cd_ValidationInfo cd;
     cd_Collections := cd_Collections cd |}.

(** What the lifecycle expects of the serializer when it reads the sequence
    after a commit: a definition that was serialized without error under a
    name is the one whose [Sequence] field is read back under that name. *)
Definition sequence_reads_back : Prop :=
  ∀ (name : string) (cd : ChaincodeDefinition CCP) (st st' : St),
    Serialize NamespacesName name (SDefinition cd) st = (st', None) →
    DeserializeFieldAsInt64 NamespacesName name "Sequence" st'
    = Ok (Sequence cd).

(** Successive commits under one name, each with its organisation states,
    up to the first one that fails. *)
Fixpoint commit_all (name : string)
    (proposals : list (ChaincodeDefinition CCP * list OSt)) (publicState : St)
  : St * bool :=
  match proposals with
  | [] => (publicState, true)
  | (cd, orgStates) :: proposals =>
      match CommitChaincodeDefinition name cd publicState orgStates with
      | (publicState, Ok _) => commit_all name proposals publicState
      | (publicState, Err _) => (publicState, false)
      end
  end.

(** What the lifecycle expects of the serializer when it looks a committed
    definition up: a definition that was serialized without error under a
    name has metadata with the chaincode-definition tag there, and is what
    [Deserialize] returns. *)
Definition definition_reads_back : Prop :=
  ∀ (name : string) (cd : ChaincodeDefinition CCP) (st st' : St),
    Serialize NamespacesName name (SDefinition cd) st = (st', None) →
    ∃ metadata,
      DeserializeMetadata NamespacesName name st' = Ok (Some metadata)
      ∧ Datatype metadata = ChaincodeDefinitionType
      ∧ Deserialize NamespacesName name metadata st' = Ok cd.

(** What the lifecycle expects of the serializer when it computes agreement:
    a record that was serialized without error is found serialized in the
    opaque view of the resulting state ([view] is that view), and a write in
    the chaincode-sources scope does not change what is found in the
    namespaces scope. *)
Definition writes_read_back (view : St → OSt) : Prop :=
  ∀ (namespace name : string) (s : Serializable CCP) (st st' : St),
    Serialize namespace name s st = (st', None) →
    IsSerialized namespace name s (view st') = Ok true.

Definition sources_apart (view : St → OSt) : Prop :=
  ∀ (name name' : string) (s : Serializable CCP) (lp : ChaincodeLocalPackage)
    (st st' : St) (r : option error),
    Serialize ChaincodeSourcesName name' (SLocalPackage lp) st = (st', r) →
    IsSerialized NamespacesName name s (view st')
    = IsSerialized NamespacesName name s (view st).

(** The error wrapping of the package write of an approval. *)
Definition package_write (privateName : string) (hash : list byte)
    (orgState : St) : St * option error :=
  match Serialize ChaincodeSourcesName privateName
          (SLocalPackage {| Hash := hash |}) orgState with
  | (orgState, Some err) =>
      (orgState,
       Some (WithMessage err "could not serialize chaincode package info to state"))
  | (orgState, None) => (orgState, None)
  end.

End Derived.

(** ** Example data

    The namespace [mycc] of the end-to-end scenarios of the spec, over the
    reference implementation.  A collection package is represented by the
    names of its collections. *)

Definition mycc_v1 : ChaincodeDefinition (list string) :=
  {| Sequence := 1;
     cd_EndorsementInfo :=
       {| Version := "1.3"; InitRequired := true; EndorsementPlugin := "builtin" |};
     cd_ValidationInfo :=
       {| ValidationPlugin := "builtin"; ValidationParameter := [x01; xff] |};
     cd_Collections := Some ["marbles"] |}.

Definition mycc_v2 : ChaincodeDefinition (list string) :=
  {| Sequence := 2;
     cd_EndorsementInfo :=
       {| Version := "1.4"; InitRequired := true; EndorsementPlugin := "builtin" |};
     cd_ValidationInfo :=
       {| ValidationPlugin := "builtin"; ValidationParameter := [x02] |};
     cd_Collections := Some ["marbles"] |}.

(** Sequence 1 again, with another version. *)
Definition mycc_v1_other : ChaincodeDefinition (list string) :=
  {| Sequence := 1;
     cd_EndorsementInfo :=
       {| Version := "9.9"; InitRequired := true; EndorsementPlugin := "builtin" |};
     cd_ValidationInfo := cd_ValidationInfo mycc_v1;
     cd_Collections := cd_Collections mycc_v1 |}.

(** Sequence 2 again, with another version. *)
Definition mycc_v2_other : ChaincodeDefinition (list string) :=
  {| Sequence := 2;
     cd_EndorsementInfo :=
       {| Version := "1.5"; InitRequired := true; EndorsementPlugin := "builtin" |};
     cd_ValidationInfo := cd_ValidationInfo mycc_v2;
     cd_Collections := cd_Collections mycc_v2 |}.

Definition mycc_v0 : ChaincodeDefinition (list string) :=
  {| Sequence := 0;
     cd_EndorsementInfo := cd_EndorsementInfo mycc_v1;
     cd_ValidationInfo := cd_ValidationInfo mycc_v1;
     cd_Collections := cd_Collections mycc_v1 |}.

Definition mycc_v3 : ChaincodeDefinition (list string) :=
  {| Sequence := 3;
     cd_EndorsementInfo := cd_EndorsementInfo mycc_v2;
     cd_ValidationInfo := cd_ValidationInfo mycc_v2;
     cd_Collections := cd_Collections mycc_v2 |}.

Definition empty_state : KVState (list string) :=
  {| entries := ∅; faulty := ∅ |}.

(** Org1 after approving sequence 1 without a package. *)
Definition org1_v1 : KVState (list string) :=
  (ApproveChaincodeDefinitionForOrg "mycc" mycc_v1 None empty_state empty_state).1.

(** The public state after the commit of sequence 1. *)
Definition public_v1 : KVState (list string) :=
  (CommitChaincodeDefinition "mycc" mycc_v1 empty_state [org1_v1]).1.

(** Org1 after approving sequence 2, Org2 never approved. *)
Definition org1_v2 : KVState (list string) :=
  (ApproveChaincodeDefinitionForOrg "mycc" mycc_v2 (Some [xab]) public_v1 org1_v1).1.

Definition public_v2 : KVState (list string) :=
  (CommitChaincodeDefinition "mycc" mycc_v2 public_v1 [org1_v2; empty_state]).1.

(** An organisation state that refuses the write of the package record. *)
Definition org_sources_refused : KVState (list string) :=
  {| entries := ∅; faulty := {[ "chaincode-sources/fields/mycc#1/Hash" ]} |}.

(** An organisation state that refuses the write of the parameters. *)
Definition org_parameters_refused : KVState (list string) :=
  {| entries := ∅; faulty := {[ "namespaces/fields/mycc#1/EndorsementInfo" ]} |}.

(** An organisation state whose approval cannot be read. *)
Definition org_unreadable : KVState (list string) :=
  {| entries := entries org1_v1; faulty := {[ "namespaces/metadata/mycc#2" ]} |}.

(** A public state that fails on every read of the sequence of [mycc]. *)
Definition public_unreadable : KVState (list string) :=
  {| entries := ∅; faulty := {[ "namespaces/fields/mycc/Sequence" ]} |}.

(** The public state after the commit of sequence 1, refusing the write of
    the metadata of [mycc]. *)
Definition public_write_refused : KVState (list string) :=
  {| entries := entries public_v1; faulty := {[ "namespaces/metadata/mycc" ]} |}.

(** A public state holding a namespace of a type that is not a chaincode. *)
Definition public_foreign : KVState (list string) :=
  {| entries :=
       <["namespaces/metadata/tms" :=
           DMetadata {| Datatype := "TokenManagementSystem"; Fields := [] |}]>
         (entries public_v1);
     faulty := ∅ |}.

(** The reserved name of the lifecycle's own namespace.  Its value is fixed
    outside this file; every property below holds whatever it is. *)
Definition lifecycle_name : string := "_lifecycle".

Definition fresh_store : FakeStore :=
  {| SaveReturns := Ok [x0a; x0b]; SaveCalls := [] |}.

Definition failing_store : FakeStore :=
  {| SaveReturns := Err (Errorf "disk full"); SaveCalls := [] |}.

(** A public state whose sequence for [mycc] is the largest [int64]. *)
Definition public_at_max : KVState (list string) :=
  {| entries := {[ "namespaces/fields/mycc/Sequence" := DInt64 int64_max ]};
     faulty := ∅ |}.

Definition mycc_at_max : ChaincodeDefinition (list string) :=
  {| Sequence := int64_max;
     cd_EndorsementInfo := cd_EndorsementInfo mycc_v1;
     cd_ValidationInfo := cd_ValidationInfo mycc_v1;
     cd_Collections := cd_Collections mycc_v1 |}.

Definition mycc_at_min : ChaincodeDefinition (list string) :=
  {| Sequence := int64_min;
     cd_EndorsementInfo := cd_EndorsementInfo mycc_v1;
     cd_ValidationInfo := cd_ValidationInfo mycc_v1;
     cd_Collections := cd_Collections mycc_v1 |}.

(** A public state with a namespace whose raw type tag is the friendly name
    of a chaincode. *)
Definition public_namesake : KVState (list string) :=
  {| entries :=
       <["namespaces/metadata/other" :=
           DMetadata {| Datatype := "Chaincode"; Fields := [] |}]>
         (entries public_v1);
     faulty := ∅ |}.

(** * Properties *)

(** ** Arithmetic on [int64] *)

Lemma add64_succ (c : Z) :
  int64_range c → (c < int64_max)%Z → add64 c 1 = (c + 1)%Z.
Proof.
  unfold int64_range, int64_min, int64_max, add64, wrap64. intros Hc Hlt.
  rewrite Z.mod_small; lia.
Qed.

Lemma add64_overflow : add64 int64_max 1 = int64_min.
Proof. reflexivity. Qed.

Lemma add64_range (a b : Z) : int64_range (add64 a b).
Proof.
  unfold int64_range, int64_min, int64_max, add64, wrap64.
  pose proof (Z.mod_pos_bound (a + b + 2 ^ 63) (2 ^ 64)) as Hb. lia.
Qed.

(** A requested sequence beyond the mathematical successor of the current one
    is caught by one of the two comparisons of the approval, whether or not
    the successor overflows. *)
Lemma skipped_sequence_caught (r c : Z) :
  int64_range r → int64_range c → (r > c + 1)%Z →
  (r > add64 c 1)%Z.
Proof.
  intros Hr Hc Hgt.
  destruct (decide (c < int64_max)%Z) as [Hlt|Hge].
  - rewrite add64_succ; done.
  - unfold int64_range, int64_max in *. lia.
Qed.

Section LifecycleProofs.

Context {CCP : Type} `{!EqDecision CCP}.
Context {St OSt : Type} `{!Serializer CCP St OSt}.

Implicit Types (name : string) (cd : ChaincodeDefinition CCP).
Implicit Types (publicState orgState : St) (orgStates : list OSt).

(** ** [ChaincodeParameters.Equal] *)

Lemma ChaincodeParameters_Equal_None (cp ocp : ChaincodeParameters CCP) :
  ChaincodeParameters_Equal cp ocp = None ↔ parameters_agree cp ocp.
Proof.
  unfold ChaincodeParameters_Equal, parameters_agree, bytes_Equal, proto_Equal.
  repeat match goal with
  | |- context [String.eqb ?a ?b] => destruct (String.eqb_spec a b)
  | |- context [bool_decide ?P] => destruct (bool_decide_reflect P)
  end; simpl; split; try discriminate; intuition congruence.
Qed.

Lemma ChaincodeParameters_Equal_refl (cp : ChaincodeParameters CCP) :
  ChaincodeParameters_Equal cp cp = None.
Proof. apply ChaincodeParameters_Equal_None. by repeat split. Qed.

(** ** The agreement loop *)

Lemma agrees_Ok privateName (cp : ChaincodeParameters CCP) (orgState : OSt) :
  match IsSerialized NamespacesName privateName (SParameters cp) orgState with
  | Ok match_ => match_
  | Err _ => false
  end = agrees privateName cp orgState.
Proof.
  unfold agrees.
  destruct (IsSerialized _ _ _ orgState) as [[]|]; symmetry;
    [apply bool_decide_eq_true_2 | apply bool_decide_eq_false_2 ..]; congruence.
Qed.

Lemma agreement_loop_spec privateName cp orgStates :
  ∀ (i : nat) (agreement : list bool),
    i + length orgStates ≤ length agreement →
    agreement_loop privateName cp i orgStates agreement
    = take i agreement ++ (agrees privateName cp <$> orgStates)
      ++ drop (i + length orgStates) agreement.
Proof.
  induction orgStates as [|orgState orgStates IH]; intros i agreement Hlen; simpl in *.
  - rewrite Nat.add_0_r, take_drop. done.
  - pose proof (agrees_Ok privateName cp orgState) as Hv.
    set (v := agrees privateName cp orgState) in *.
    assert (agreement_loop privateName cp (S i) orgStates (<[i := v]> agreement)
            = take i agreement ++ (v :: (agrees privateName cp <$> orgStates))
              ++ drop (i + S (length orgStates)) agreement) as Hstep.
    { rewrite IH by (rewrite length_insert; lia).
      rewrite (take_S_r _ i v) by (apply list_lookup_insert_eq; lia).
      rewrite take_insert_ge by lia.
      rewrite drop_insert_lt by lia.
      rewrite <- app_assoc. simpl.
      by replace (S (i + length orgStates)) with (i + S (length orgStates)) by lia. }
    destruct (IsSerialized _ _ _ orgState); rewrite Hv; exact Hstep.
Qed.

Lemma agreement_loop_replicate privateName cp orgStates :
  agreement_loop privateName cp 0 orgStates (replicate (length orgStates) false)
  = agrees privateName cp <$> orgStates.
Proof.
  rewrite agreement_loop_spec by (rewrite length_replicate; lia).
  rewrite take_0, drop_ge by (rewrite length_replicate; lia).
  simpl. by rewrite app_nil_r.
Qed.

(** ** The loop of [QueryNamespaceDefinitions] *)

Lemma namespace_entries_fmap (metadatas : gmap string StateMetadata) :
  map_fold namespace_entry ∅ metadatas = friendly_name <$> metadatas.
Proof.
  apply (map_fold_weak_ind (λ r m, r = friendly_name <$> m)).
  - by rewrite fmap_empty.
  - intros key value m r _ ->. rewrite fmap_insert.
    unfold namespace_entry, friendly_name.
    destruct (String.eqb_spec (Datatype value) ChaincodeDefinitionType);
      [rewrite bool_decide_eq_true_2 | rewrite bool_decide_eq_false_2]; done.
Qed.

(** ** [CommitChaincodeDefinition]: the sequence check *)

(** C1.  A commit whose sequence is not the current public sequence plus one
    returns an error and leaves the public state as it was.  The sum is the
    [int64] sum of the code, the successor of the current sequence below the
    largest [int64] ([add64_succ]).  A failed read of the current sequence is
    covered too (no current sequence is then reported at all). *)
Theorem CommitChaincodeDefinition_wrong_sequence
    name cd publicState orgStates :
  (∀ currentSequence,
     DeserializeFieldAsInt64 NamespacesName name "Sequence" publicState
       = Ok currentSequence →
     Sequence cd ≠ add64 currentSequence 1) →
  ∃ err,
    CommitChaincodeDefinition name cd publicState orgStates
    = (publicState, Err err).
Proof.
  intros Hseq. unfold CommitChaincodeDefinition.
  destruct (DeserializeFieldAsInt64 _ _ _ _) as [currentSequence|err]; [|eauto].
  specialize (Hseq currentSequence eq_refl).
  destruct (Z.eqb_spec (Sequence cd) (add64 currentSequence 1)); [done|].
  simpl. eauto.
Qed.

(** ** [ApproveChaincodeDefinitionForOrg]: the sequence checks *)

(** C2.  With requested sequence R and current public sequence C, an approval
    is refused without any write when R and C are both 0, when R is below C,
    and when R is above C + 1 (as the code computes it, and as the integers
    have it for any two [int64] values). *)
Theorem ApproveChaincodeDefinitionForOrg_sequence_refused
    name cd localPackageHash publicState orgState currentSequence :
  DeserializeFieldAsInt64 NamespacesName name "Sequence" publicState
    = Ok currentSequence →
  (Sequence cd = 0 ∧ currentSequence = 0)%Z
  ∨ (Sequence cd < currentSequence)%Z
  ∨ (Sequence cd > add64 currentSequence 1)%Z
  ∨ (int64_range (Sequence cd) ∧ int64_range currentSequence
     ∧ Sequence cd > currentSequence + 1)%Z →
  ∃ err,
    ApproveChaincodeDefinitionForOrg name cd localPackageHash publicState orgState
    = (orgState, Some err).
Proof.
  intros Hread Hcases. unfold ApproveChaincodeDefinitionForOrg. rewrite Hread.
  assert ((Sequence cd = 0 ∧ currentSequence = 0)%Z
          ∨ (Sequence cd < currentSequence)%Z
          ∨ (Sequence cd > add64 currentSequence 1)%Z) as Hcode.
  { destruct Hcases as [?|[?|[?|(Hr & Hc & Hgt)]]]; auto.
    right; right. by apply skipped_sequence_caught. }
  clear Hcases. simpl.
  destruct (Z.eqb_spec currentSequence (Sequence cd)) as [Heq|Hne];
    destruct (Z.eqb_spec (Sequence cd) 0) as [Hz|Hnz]; simpl; eauto;
    destruct (Z.ltb_spec (Sequence cd) currentSequence); eauto;
    destruct (Z.gtb_spec (Sequence cd) (add64 currentSequence 1)); eauto;
    exfalso; lia.
Qed.

(** ** [ApproveChaincodeDefinitionForOrg]: approving the committed sequence *)

(** Case analysis along the control flow of the approval. *)
Ltac approve_cases :=
  unfold ApproveChaincodeDefinitionForOrg, approval_writes, private_name in *;
  repeat match goal with
  | H : DeserializeFieldAsInt64 _ _ _ _ = _ |- _ => rewrite H in *; clear H
  | H : DeserializeMetadata _ _ _ = _ |- _ => rewrite H in *; clear H
  | H : Deserialize _ _ _ _ = _ |- _ => rewrite H in *; clear H
  | |- context [DeserializeFieldAsInt64 ?a ?b ?c ?d] =>
      destruct (DeserializeFieldAsInt64 a b c d) eqn:?
  | |- context [Z.eqb ?a ?b] => destruct (Z.eqb_spec a b)
  | |- context [Z.ltb ?a ?b] => destruct (Z.ltb_spec a b)
  | |- context [Z.gtb ?a ?b] => destruct (Z.gtb_spec a b)
  | |- context [DeserializeMetadata ?a ?b ?c] =>
      destruct (DeserializeMetadata a b c) as [[?|]|] eqn:?
  | |- context [Deserialize ?a ?b ?c ?d] =>
      destruct (Deserialize a b c d) eqn:?
  | |- context [ChaincodeParameters_Equal ?a ?b] =>
      destruct (ChaincodeParameters_Equal a b) eqn:?
  | |- context [Serialize ?a ?b ?c ?d] =>
      destruct (Serialize a b c d) as [? [?|]] eqn:?
  | |- context [match ?h with Some _ => _ | None => _ end] =>
      is_var h; destruct h
  | _ => progress simpl in *
  end.

(** C3, amended.  When the requested sequence is the committed one (not zero,
    and below the largest [int64], where the code's [current+1] still is the
    successor), the approval succeeds exactly when the committed definition
    can be read, its parameters agree with the proposed ones (version,
    endorsement plugin, validation plugin, validation parameter bytes,
    collections), and the writes of the approval succeed. *)
Theorem ApproveChaincodeDefinitionForOrg_current_sequence
    name cd localPackageHash publicState orgState :
  DeserializeFieldAsInt64 NamespacesName name "Sequence" publicState
    = Ok (Sequence cd) →
  Sequence cd ≠ 0%Z →
  int64_range (Sequence cd) → (Sequence cd < int64_max)%Z →
  (ApproveChaincodeDefinitionForOrg name cd localPackageHash publicState orgState).2
    = None
  ↔ (∃ metadata definedChaincode,
       DeserializeMetadata NamespacesName name publicState = Ok (Some metadata)
       ∧ Deserialize NamespacesName name metadata publicState
         = Ok definedChaincode
       ∧ parameters_agree (Parameters definedChaincode) (Parameters cd))
    ∧ (approval_writes name cd localPackageHash orgState).2 = None.
Proof.
  intros Hread Hnz Hrange Hmax.
  pose proof (add64_succ _ Hrange Hmax) as Hsucc.
  unfold ApproveChaincodeDefinitionForOrg. rewrite Hread, Hsucc. simpl.
  rewrite Z.eqb_refl. simpl.
  destruct (Z.eqb_spec (Sequence cd) 0) as [|_]; [done|].
  destruct (Z.ltb_spec (Sequence cd) (Sequence cd)) as [|_]; [lia|].
  destruct (Z.gtb_spec (Sequence cd) (Sequence cd + 1)) as [|_]; [lia|].
  destruct (DeserializeMetadata NamespacesName name publicState)
    as [[metadata|]|err] eqn:Hmd; simpl.
  - destruct (Deserialize NamespacesName name metadata publicState)
      as [definedChaincode|err] eqn:Hdef; simpl.
    + destruct (ChaincodeParameters_Equal (Parameters definedChaincode)
                  (Parameters cd)) as [err|] eqn:Heq; simpl.
      * split; [done|]. intros [(md & dc & Hmd' & Hdef' & Hagree) _].
        injection Hmd' as <-. rewrite Hdef in Hdef'. injection Hdef' as <-.
        apply ChaincodeParameters_Equal_None in Hagree. congruence.
      * apply ChaincodeParameters_Equal_None in Heq.
        unfold approval_writes, private_name.
        destruct (Serialize NamespacesName _ _ orgState) as [orgState1 [err|]];
          simpl; [split; [done|by intros [_ ?]]|].
        destruct localPackageHash as [hash|]; simpl.
        -- destruct (Serialize ChaincodeSourcesName _ _ orgState1)
             as [orgState2 [err|]]; simpl; [split; [done|by intros [_ ?]]|].
           split; [|done]. intros _. split; [|done]. eauto.
        -- split; [|done]. intros _. split; [|done]. eauto.
    + split; [done|]. intros [(md & dc & Hmd' & Hdef' & _) _].
      injection Hmd' as <-. congruence.
  - split; [done|]. by intros [(md & dc & Hmd' & _) _].
  - split; [done|]. by intros [(md & dc & Hmd' & _) _].
Qed.

(** ** [CommitChaincodeDefinition]: agreement and the public write *)

(** C4.  After the sequence check the code computes one agreement entry per
    supplied organisation state, in their order: entry [i] is true exactly
    when [IsSerialized] on state [i], at the key [name#Sequence] and for the
    proposed parameters, reports a match without error; a failed read gives
    false.  This slice is what the call returns; the one error that can
    replace it is the failure of the public write, never a read of an
    organisation's state. *)
Theorem CommitChaincodeDefinition_agreement
    name cd publicState orgStates currentSequence :
  DeserializeFieldAsInt64 NamespacesName name "Sequence" publicState
    = Ok currentSequence →
  Sequence cd = add64 currentSequence 1 →
  ∃ agreement : list bool,
    length agreement = length orgStates
    ∧ (∀ i : nat,
         agreement !! i = Some true
         ↔ ∃ org : OSt,
             orgStates !! i = Some org
             ∧ IsSerialized NamespacesName (private_name name (Sequence cd))
                 (SParameters (Parameters cd)) org = Ok true)
    ∧ (∀ (i : nat) (org : OSt) err,
         orgStates !! i = Some org →
         IsSerialized NamespacesName (private_name name (Sequence cd))
           (SParameters (Parameters cd)) org = Err err →
         agreement !! i = Some false)
    ∧ match (Serialize NamespacesName name (SDefinition cd) publicState).2 with
      | None =>
          (CommitChaincodeDefinition name cd publicState orgStates).2
          = Ok agreement
      | Some err =>
          (CommitChaincodeDefinition name cd publicState orgStates).2
          = Err (WithMessage err "could not serialize chaincode definition")
      end.
Proof.
  intros Hread Hseq.
  exists (agrees (private_name name (Sequence cd)) (Parameters cd) <$> orgStates).
  split; [by rewrite length_fmap|]. split; [|split].
  - intros i. rewrite list_lookup_fmap. unfold agrees. split.
    + destruct (orgStates !! i) as [org|]; [|done]. simpl.
      intros [= Hb]. apply bool_decide_eq_true_1 in Hb. eauto.
    + intros (org & -> & Hok). simpl. f_equal.
      by apply bool_decide_eq_true_2.
  - intros i org err Hi Herr. rewrite list_lookup_fmap, Hi. simpl.
    unfold agrees. f_equal. apply bool_decide_eq_false_2. congruence.
  - unfold CommitChaincodeDefinition. rewrite Hread.
    destruct (Z.eqb_spec (Sequence cd) (add64 currentSequence 1)); [|done].
    simpl. fold (private_name name (Sequence cd)).
    rewrite agreement_loop_replicate.
    by destruct (Serialize NamespacesName name (SDefinition cd) publicState)
      as [publicState' [err|]].
Qed.

(** C5.  After the sequence check the public state the call leaves behind is
    the one [Serialize] leaves when given the whole proposed definition under
    the chaincode name, whatever the organisation states are; the call fails
    exactly when that write fails. *)
Theorem CommitChaincodeDefinition_public_write
    name cd publicState orgStates currentSequence :
  DeserializeFieldAsInt64 NamespacesName name "Sequence" publicState
    = Ok currentSequence →
  Sequence cd = add64 currentSequence 1 →
  (CommitChaincodeDefinition name cd publicState orgStates).1
    = (Serialize NamespacesName name (SDefinition cd) publicState).1
  ∧ (is_Ok (CommitChaincodeDefinition name cd publicState orgStates).2 = true
     ↔ (Serialize NamespacesName name (SDefinition cd) publicState).2 = None)
  ∧ (∀ err,
       (CommitChaincodeDefinition name cd publicState orgStates).2 = Err err
       ↔ ∃ cause,
           (Serialize NamespacesName name (SDefinition cd) publicState).2
             = Some cause
           ∧ err = WithMessage cause "could not serialize chaincode definition").
Proof.
  intros Hread Hseq. unfold CommitChaincodeDefinition. rewrite Hread.
  destruct (Z.eqb_spec (Sequence cd) (add64 currentSequence 1)); [|done].
  simpl.
  destruct (Serialize NamespacesName name (SDefinition cd) publicState)
    as [publicState' [cause|]]; simpl; (split; [done|]); split.
  - done.
  - intros err. split; [intros [= <-]; eauto|].
    intros (cause' & [= <-] & ->). done.
  - done.
  - intros err. split; [done|]. by intros (cause & ? & _).
Qed.

(** ** [ApproveChaincodeDefinitionForOrg]: the writes *)

(** The state an approval leaves is the incoming one or the one its writes
    leave. *)
Lemma ApproveChaincodeDefinitionForOrg_state
    name cd localPackageHash publicState orgState :
  (ApproveChaincodeDefinitionForOrg name cd localPackageHash publicState orgState).1
    = orgState
  ∨ (ApproveChaincodeDefinitionForOrg name cd localPackageHash publicState orgState).1
    = (approval_writes name cd localPackageHash orgState).1.
Proof. approve_cases; auto. Qed.

Lemma ApproveChaincodeDefinitionForOrg_accepted_inv
    name cd localPackageHash publicState orgState orgState' :
  ApproveChaincodeDefinitionForOrg name cd localPackageHash publicState orgState
    = (orgState', None) →
  approval_writes name cd localPackageHash orgState = (orgState', None).
Proof. approve_cases; intros [= <-] || intros [= ]; done. Qed.

Lemma CommitChaincodeDefinition_accepted_inv
    name cd publicState orgStates publicState' agreement :
  CommitChaincodeDefinition name cd publicState orgStates
    = (publicState', Ok agreement) →
  Serialize NamespacesName name (SDefinition cd) publicState
    = (publicState', None).
Proof.
  unfold CommitChaincodeDefinition.
  destruct (DeserializeFieldAsInt64 _ _ _ _) as [currentSequence|]; [|done].
  destruct (negb _); [done|].
  by destruct (Serialize _ _ _ publicState) as [? [?|]]; intros [= <- _].
Qed.

(** C6.  The organisation state an accepted approval leaves behind is the
    result of writing the parameters at [name#requestedSequence] in the
    namespaces scope, with no condition on what the state held before,
    followed by the write of the package record at the same key in the
    chaincode-sources scope exactly when a hash was supplied; without a hash
    nothing is written after the parameters. *)
Theorem ApproveChaincodeDefinitionForOrg_accepted_writes
    name cd localPackageHash publicState orgState orgState' :
  ApproveChaincodeDefinitionForOrg name cd localPackageHash publicState orgState
    = (orgState', None) →
  ∃ orgState1,
    Serialize NamespacesName (private_name name (Sequence cd))
      (SParameters (Parameters cd)) orgState = (orgState1, None)
    ∧ match localPackageHash with
      | Some hash =>
          Serialize ChaincodeSourcesName (private_name name (Sequence cd))
            (SLocalPackage {| Hash := hash |}) orgState1 = (orgState', None)
      | None => orgState' = orgState1
      end.
Proof.
  approve_cases; intros [= <-] || intros [= ]; eauto.
Qed.

(** C7, amended.  Every error return of the approval other than the two that
    report a failed [Serialize] on the organisation's state happens before the
    first write: the organisation's state is unchanged. *)
Theorem ApproveChaincodeDefinitionForOrg_validation_error_no_write
    name cd localPackageHash publicState orgState orgState' err :
  ApproveChaincodeDefinitionForOrg name cd localPackageHash publicState orgState
    = (orgState', Some err) →
  is_write_error err = false →
  orgState' = orgState.
Proof.
  approve_cases; intros [= <- <-]; simpl; try done; intros [=].
Qed.

(** ** The two lookups of a definition *)

(** C8.  The two lookups treat an undefined name differently.  The
    lifecycle's own namespace is always defined (third part: for that name
    [ChaincodeDefinitionIfDefined] returns the same synthetic definition
    whatever the state holds); any other name is undefined when its public
    metadata is absent.  For an undefined name
    [ChaincodeDefinitionIfDefined] returns [(false, nil, nil)], whereas
    [QueryChaincodeDefinition] returns an error (it does so whenever the
    metadata is absent); and when the metadata of such a name is present with
    a type tag other than the chaincode-definition tag,
    [ChaincodeDefinitionIfDefined] returns an error, not a negative
    result. *)
Theorem absent_metadata_asymmetry (LifecycleNamespace : string) name state :
  (DeserializeMetadata NamespacesName name state = Ok None →
     (∃ err, QueryChaincodeDefinition name state = Err err)
     ∧ (name ≠ LifecycleNamespace →
        ChaincodeDefinitionIfDefined LifecycleNamespace name state
        = (false, None, None)))
  ∧ (∀ metadata,
       DeserializeMetadata NamespacesName name state = Ok (Some metadata) →
       Datatype metadata ≠ ChaincodeDefinitionType →
       name ≠ LifecycleNamespace →
       ∃ err,
         ChaincodeDefinitionIfDefined LifecycleNamespace name state
         = (false, None, Some err))
  ∧ ChaincodeDefinitionIfDefined LifecycleNamespace LifecycleNamespace state
    = (true,
       Some {| Sequence := 0;
               cd_EndorsementInfo :=
                 {| Version := EmptyString; InitRequired := false;
                    EndorsementPlugin := EmptyString |};
               cd_ValidationInfo :=
                 {| ValidationPlugin := EmptyString;
                    ValidationParameter := [] |};
               cd_Collections := None |},
       None).
Proof.
  unfold QueryChaincodeDefinition, ChaincodeDefinitionIfDefined.
  split; [|split].
  - intros ->. split; [eauto|]. intros Hne.
    by destruct (String.eqb_spec name LifecycleNamespace).
  - intros metadata -> Htag Hne.
    destruct (String.eqb_spec name LifecycleNamespace); [done|].
    destruct (String.eqb_spec (Datatype metadata) ChaincodeDefinitionType);
      [done|]. simpl. eauto.
  - by rewrite String.eqb_refl.
Qed.

(** ** [QueryNamespaceDefinitions] *)

(** C10.  When the public metadata can be enumerated, the query returns a map
    with exactly the enumerated namespaces: a chaincode definition is listed
    as [Chaincode], any other type tag as itself. *)
Theorem QueryNamespaceDefinitions_labels publicState metadatas :
  DeserializeAllMetadata NamespacesName publicState = Ok metadatas →
  ∃ labels : gmap string string,
    QueryNamespaceDefinitions publicState = Ok labels
    ∧ dom labels = dom metadatas
    ∧ ∀ key value,
        metadatas !! key = Some value →
        (Datatype value = ChaincodeDefinitionType →
         labels !! key = Some FriendlyChaincodeDefinitionType)
        ∧ (Datatype value ≠ ChaincodeDefinitionType →
           labels !! key = Some (Datatype value)).
Proof.
  intros Hall. unfold QueryNamespaceDefinitions. rewrite Hall.
  rewrite namespace_entries_fmap. eexists. split; [done|].
  split; [apply dom_fmap_L|].
  intros key value Hkey. rewrite lookup_fmap, Hkey. simpl.
  unfold friendly_name. split; intros Htag.
  - by rewrite bool_decide_eq_true_2.
  - by rewrite bool_decide_eq_false_2.
Qed.

End LifecycleProofs.

(** ** [InstallChaincode] *)

Section InstallProofs.

Context {CS MD L : Type} `{!ChaincodeStore CS} `{!PackageParser MD}.

(** C9.  A package that does not parse gives an error and neither the store
    nor the listener is touched.  A package that parses is handed to [Save]:
    if [Save] fails the call fails and the listener is left alone; if [Save]
    succeeds its hash is returned and the listener, when there is one,
    handles the parsed metadata and the hash once. *)
Theorem InstallChaincode_effects (listener : option (InstallListener MD L))
    (name version : string) (chaincodeInstallPackage : list byte)
    (store : CS) (observed : L) :
  (∀ err,
     Parse chaincodeInstallPackage = Err err →
     ∃ err',
       InstallChaincode listener name version chaincodeInstallPackage
         store observed
       = (store, observed, Err err'))
  ∧ (∀ pkg store' err,
       Parse chaincodeInstallPackage = Ok pkg →
       Save name version chaincodeInstallPackage store = (store', Err err) →
       ∃ err',
         InstallChaincode listener name version chaincodeInstallPackage
           store observed
         = (store', observed, Err err'))
  ∧ (∀ pkg store' hash,
       Parse chaincodeInstallPackage = Ok pkg →
       Save name version chaincodeInstallPackage store = (store', Ok hash) →
       InstallChaincode listener name version chaincodeInstallPackage
         store observed
       = (store',
          match listener with
          | Some l => @HandleChaincodeInstalled MD L l (Metadata pkg) hash observed
          | None => observed
          end,
          Ok hash)).
Proof.
  unfold InstallChaincode. split; [|split].
  - intros err ->. eauto.
  - intros pkg store' err -> ->. eauto.
  - intros pkg store' hash -> ->. done.
Qed.

(** With a listener that records, the log grows by one entry on a successful
    install and not at all on a failed one. *)
Lemma InstallChaincode_notifies_once
    (name version : string) (chaincodeInstallPackage : list byte)
    (store : CS) (log : list (MD * list byte)) :
  let '(_, log', r) :=
    InstallChaincode (Some (RecordingListener MD)) name version
      chaincodeInstallPackage store log in
  length log' = (length log + if is_Ok r then 1 else 0)%nat.
Proof.
  unfold InstallChaincode.
  destruct (Parse chaincodeInstallPackage) as [pkg|err]; simpl; [|lia].
  destruct (Save name version chaincodeInstallPackage store)
    as [store' [hash|err]]; simpl; [|lia].
  rewrite length_app. simpl. lia.
Qed.

End InstallProofs.

(** * The reference implementation

    What is written can be read back, and a write touches the entries of its
    own record only. *)

Section MemoryProofs.

Context {CCP : Type} `{!EqDecision CCP}.

Implicit Types (st : KVState CCP) (s : Serializable CCP).
Implicit Types (namespace name key field : string).

Lemma PutState_inv key (value : StateData CCP) st st' r :
  PutState key value st = (st', r) →
  faulty st' = faulty st
  ∧ match r with
    | None => (key ∉ faulty st) ∧ entries st' = <[key := value]> (entries st)
    | Some _ => st' = st
    end.
Proof. unfold PutState. case_bool_decide; intros [= <- <-]; simpl; auto. Qed.

Lemma GetState_not_faulty key st :
  key ∉ faulty st → GetState key st = Ok (entries st !! key).
Proof. intros Hkey. unfold GetState. by rewrite bool_decide_eq_false_2. Qed.

Lemma FieldKey_inj namespace name field1 field2 :
  FieldKey namespace name field1 = FieldKey namespace name field2 →
  field1 = field2.
Proof.
  unfold FieldKey. intros Heq.
  do 4 apply (inj (String.append _)) in Heq. exact Heq.
Qed.

Lemma MetadataKey_FieldKey namespace name name' field :
  MetadataKey namespace name ≠ FieldKey namespace name' field.
Proof.
  unfold MetadataKey, FieldKey. intros Heq.
  apply (inj (String.append _)) in Heq. simpl in Heq. discriminate.
Qed.

Lemma put_fields_inv namespace name (fields : list (string * StateData CCP)) :
  ∀ st st' r,
    put_fields namespace name fields st = (st', r) →
    faulty st' = faulty st
    ∧ (∀ key, key ∉ (FieldKey namespace name <$> fields.*1) →
              entries st' !! key = entries st !! key)
    ∧ (r = None → NoDup fields.*1 →
       ∀ field value, (field, value) ∈ fields →
         (FieldKey namespace name field ∉ faulty st)
         ∧ entries st' !! FieldKey namespace name field = Some value).
Proof.
  induction fields as [|[field0 value0] fields IH]; intros st st' r; simpl.
  - intros [= <- <-]. split; [done|]. split; [done|].
    intros _ _ field value Hin. by apply elem_of_nil in Hin.
  - destruct (PutState (FieldKey namespace name field0) value0 st)
      as [st1 [err|]] eqn:Hput; apply PutState_inv in Hput as [Hfaulty Hput].
    + subst st1. intros [= <- <-]. split; [done|]. split; [done|]. done.
    + destruct Hput as [Hok Hentries]. intros Hrest.
      apply IH in Hrest as (Hfaulty' & Hframe & Hstored).
      split; [congruence|]. split.
      * intros key [Hne Hkey]%not_elem_of_cons.
        rewrite Hframe, Hentries by done. by apply lookup_insert_ne.
      * intros -> [Hfresh Hnodup]%NoDup_cons field value
          [[= -> ->]|Hin]%elem_of_cons.
        -- split; [done|]. rewrite Hframe, Hentries.
           ++ apply lookup_insert_eq.
           ++ intros (field' & Heq & Hin)%list_elem_of_fmap.
              apply FieldKey_inj in Heq as <-. done.
        -- destruct (Hstored eq_refl Hnodup field value Hin) as [Hnf Hl].
           split; [congruence|done].
Qed.

Lemma field_names_NoDup s : NoDup (field_values s).*1.
Proof. destruct s; simpl; apply (bool_decide_unpack _); by vm_compute. Qed.

(** A write leaves the entries of other records alone, also when it fails. *)
Lemma kv_Serialize_frame namespace name s st st' r :
  kv_Serialize namespace name s st = (st', r) →
  faulty st' = faulty st
  ∧ ∀ key, key ∉ written_keys namespace name s →
           entries st' !! key = entries st !! key.
Proof.
  unfold kv_Serialize, written_keys.
  destruct (put_fields namespace name (field_values s) st) as [st1 [err|]] eqn:Hfields;
    apply put_fields_inv in Hfields as (Hfaulty & Hframe & _).
  - intros [= <- <-]. split; [done|].
    intros key [_ Hkey]%not_elem_of_cons. by apply Hframe.
  - intros [Hfaulty' Hput]%PutState_inv. split; [congruence|].
    intros key [Hne Hkey]%not_elem_of_cons.
    destruct r as [err|].
    + subst st'. by apply Hframe.
    + destruct Hput as [_ ->]. rewrite lookup_insert_ne by done. by apply Hframe.
Qed.

(** A successful write leaves the record in the state, readable. *)
Lemma kv_Serialize_stored namespace name s st st' :
  kv_Serialize namespace name s st = (st', None) →
  ((MetadataKey namespace name ∉ faulty st')
   ∧ entries st' !! MetadataKey namespace name = Some (DMetadata (metadata_of s)))
  ∧ ∀ field value, (field, value) ∈ field_values s →
      (FieldKey namespace name field ∉ faulty st')
      ∧ entries st' !! FieldKey namespace name field = Some value.
Proof.
  unfold kv_Serialize.
  destruct (put_fields namespace name (field_values s) st) as [st1 [err|]] eqn:Hfields;
    [by intros [= <- ?]|].
  apply put_fields_inv in Hfields as (Hfaulty & _ & Hstored).
  intros [Hfaulty' [Hok Hentries]]%PutState_inv. split.
  - split; [congruence|]. rewrite Hentries. apply lookup_insert_eq.
  - intros field value Hin.
    destruct (Hstored eq_refl (field_names_NoDup s) field value Hin) as [Hnf Hl].
    split; [congruence|]. rewrite Hentries, lookup_insert_ne; [done|].
    apply MetadataKey_FieldKey.
Qed.

Lemma fields_match_stored namespace name (fields : list (string * StateData CCP)) st :
  (∀ field value, (field, value) ∈ fields →
     (FieldKey namespace name field ∉ faulty st)
     ∧ entries st !! FieldKey namespace name field = Some value) →
  fields_match namespace name fields st = Ok true.
Proof.
  induction fields as [|[field0 value0] fields IH]; intros Hstored; simpl; [done|].
  destruct (Hstored field0 value0) as [Hnf Hl]; [apply list_elem_of_here|].
  rewrite GetState_not_faulty, Hl, bool_decide_eq_true_2 by done.
  apply IH. intros field value Hin. apply Hstored. by apply list_elem_of_further.
Qed.

(** Read your writes: the record just written is found serialized. *)
Lemma kv_Serialize_IsSerialized namespace name s st st' :
  kv_Serialize namespace name s st = (st', None) →
  kv_IsSerialized namespace name s st' = Ok true.
Proof.
  intros [[Hnf Hmd] Hfields]%kv_Serialize_stored. unfold kv_IsSerialized.
  rewrite GetState_not_faulty, Hmd, bool_decide_eq_true_2 by done.
  by apply fields_match_stored.
Qed.

Lemma fields_match_ext namespace name (fields : list (string * StateData CCP)) st1 st2 :
  faulty st1 = faulty st2 →
  (∀ key, key ∈ (FieldKey namespace name <$> fields.*1) →
          entries st1 !! key = entries st2 !! key) →
  fields_match namespace name fields st1 = fields_match namespace name fields st2.
Proof.
  intros Hfaulty. induction fields as [|[field0 value0] fields IH];
    intros Hsame; simpl; [done|].
  unfold GetState. rewrite Hfaulty, Hsame by apply list_elem_of_here.
  rewrite IH; [done|]. intros key Hkey. apply Hsame. by apply list_elem_of_further.
Qed.

(** Whether a record is found serialized depends on its own entries only. *)
Lemma kv_IsSerialized_ext namespace name s st1 st2 :
  faulty st1 = faulty st2 →
  (∀ key, key ∈ written_keys namespace name s →
          entries st1 !! key = entries st2 !! key) →
  kv_IsSerialized namespace name s st1 = kv_IsSerialized namespace name s st2.
Proof.
  intros Hfaulty Hsame. unfold kv_IsSerialized, GetState.
  rewrite Hfaulty, Hsame by apply list_elem_of_here.
  rewrite (fields_match_ext _ _ _ st1 st2); [done..|].
  intros key Hkey. apply Hsame. by apply list_elem_of_further.
Qed.

(** The keys of the two scopes of an organisation's state are apart. *)
Lemma written_keys_namespaces name s key :
  key ∈ written_keys NamespacesName name s → ∃ rest, key = String "n" rest.
Proof.
  unfold written_keys.
  intros [->|(field & -> & _)%list_elem_of_fmap]%elem_of_cons; simpl; eauto.
Qed.

Lemma written_keys_sources name s key :
  key ∈ written_keys ChaincodeSourcesName name s → ∃ rest, key = String "c" rest.
Proof.
  unfold written_keys.
  intros [->|(field & -> & _)%list_elem_of_fmap]%elem_of_cons; simpl; eauto.
Qed.

(** An accepted approval is an agreement: whatever the organisation's state
    held at [name#sequence], a commit of the approved definition finds the
    approved parameters there. *)
Lemma approved_then_agrees name (cd : ChaincodeDefinition CCP)
    localPackageHash (publicState orgState orgState' : KVState CCP)  :
  ApproveChaincodeDefinitionForOrg name cd localPackageHash publicState orgState
    = (orgState', None) →
  agrees (private_name name (Sequence cd)) (Parameters cd) orgState' = true.
Proof.
  intros Hwrites%ApproveChaincodeDefinitionForOrg_accepted_inv.
  unfold agrees. apply bool_decide_eq_true_2.
  unfold approval_writes in Hwrites. simpl in *.
  destruct (kv_Serialize NamespacesName _ _ orgState) as [orgState1 [err|]]
    eqn:Hparams; [done|].
  apply kv_Serialize_IsSerialized in Hparams.
  destruct localPackageHash as [hash|]; [|by injection Hwrites as <-].
  apply kv_Serialize_frame in Hwrites as [Hfaulty Hframe].
  rewrite <- Hparams. apply kv_IsSerialized_ext; [done|].
  intros key [rest ->]%written_keys_namespaces. apply Hframe.
  intros [rest' [=]]%written_keys_sources.
Qed.

(** An approval without a package hash leaves every entry of the
    chaincode-sources scope as it was, whether it is accepted or not. *)
Lemma approval_without_hash_keeps_sources name (cd : ChaincodeDefinition CCP)
    (publicState orgState : KVState CCP) key rest :
  key = ChaincodeSourcesName +:+ rest →
  entries (ApproveChaincodeDefinitionForOrg name cd None publicState orgState).1
    !! key
  = entries orgState !! key.
Proof.
  intros ->.
  destruct (ApproveChaincodeDefinitionForOrg_state name cd None publicState orgState)
    as [->| ->]; [done|].
  unfold approval_writes. simpl.
  destruct (kv_Serialize NamespacesName _ _ orgState) as [orgState1 r] eqn:Hparams.
  apply kv_Serialize_frame in Hparams as [_ Hframe].
  assert (∀ st1 : KVState CCP,
            (match r with Some err => (st1, Some err) | None => (st1, None) end).1
            = st1) as -> by (by destruct r).
  apply Hframe. intros [rest' [=]]%written_keys_namespaces.
Qed.

(** A successful commit defines the namespace: the public state then holds
    the proposed definition, with its sequence. *)
Lemma committed_then_defined name (cd : ChaincodeDefinition CCP)
    (publicState publicState' : KVState CCP) orgStates agreement :
  CommitChaincodeDefinition name cd publicState orgStates
    = (publicState', Ok agreement) →
  DeserializeFieldAsInt64 NamespacesName name "Sequence" publicState'
    = Ok (Sequence cd)
  ∧ QueryChaincodeDefinition name publicState' = Ok cd.
Proof.
  intros Hwrite%CommitChaincodeDefinition_accepted_inv. simpl in Hwrite.
  apply kv_Serialize_stored in Hwrite as [[Hnf Hmd] Hfields].
  pose proof (Hfields "Sequence" (DInt64 (Sequence cd))
                ltac:(simpl; auto using list_elem_of_here, list_elem_of_further)) as [Hnf0 Hl0].
  pose proof (Hfields "EndorsementInfo" (DEndorsementInfo (cd_EndorsementInfo cd))
                ltac:(simpl; auto using list_elem_of_here, list_elem_of_further)) as [Hnf1 Hl1].
  pose proof (Hfields "ValidationInfo" (DValidationInfo (cd_ValidationInfo cd))
                ltac:(simpl; auto using list_elem_of_here, list_elem_of_further)) as [Hnf2 Hl2].
  pose proof (Hfields "Collections" (DCollections (cd_Collections cd))
                ltac:(simpl; auto using list_elem_of_here, list_elem_of_further)) as [Hnf3 Hl3].
  split.
  - simpl. unfold kv_DeserializeFieldAsInt64.
    by rewrite GetState_not_faulty, Hl0.
  - unfold QueryChaincodeDefinition. simpl.
    unfold kv_DeserializeMetadata, kv_Deserialize.
    rewrite !GetState_not_faulty, Hmd, Hl0, Hl1, Hl2, Hl3 by done.
    simpl. by destruct cd.
Qed.

End MemoryProofs.

(** * Further properties of the lifecycle *)

(** ** Arithmetic and strings *)

Lemma add64_neq (x : Z) : add64 x 1 ≠ x.
Proof.
  unfold add64, wrap64. intros Heq.
  pose proof (Z.div_mod (x + 1 + 2 ^ 63) (2 ^ 64)) as Hdm.
  pose proof (Z.mod_pos_bound (x + 1 + 2 ^ 63) (2 ^ 64)) as Hb.
  lia.
Qed.

Lemma sequence_window (C R : Z) :
  (C ≤ R ≤ add64 C 1)%Z → int64_range C →
  (C < int64_max)%Z ∧ (R = C ∨ R = C + 1)%Z.
Proof.
  intros Hwin Hrange.
  destruct (decide (C < int64_max)%Z) as [Hlt|Hge].
  - rewrite add64_succ in Hwin by done. lia.
  - assert (C = int64_max) as -> by (unfold int64_range in *; lia).
    rewrite add64_overflow in Hwin. unfold int64_min, int64_max in *. lia.
Qed.

Lemma string_app_assoc (a b c : string) : (a +:+ b) +:+ c = a +:+ (b +:+ c).
Proof.
  induction a as [|x a IH]; [done|].
  change (String x ((a +:+ b) +:+ c) = String x (a +:+ (b +:+ c))).
  by rewrite IH.
Qed.

Section MoreProperties.

Context {CCP : Type} `{!EqDecision CCP}.
Context {St OSt : Type} `{!Serializer CCP St OSt}.

Implicit Types (name : string) (cd : ChaincodeDefinition CCP).
Implicit Types (cp ocp : ChaincodeParameters CCP).
Implicit Types (publicState orgState : St) (orgStates : list OSt).

(** Case analysis along the control flow of the approval. *)
Ltac approve_flow :=
  unfold ApproveChaincodeDefinitionForOrg, approval_writes, package_write,
    private_name in *;
  repeat match goal with
  | H : DeserializeFieldAsInt64 _ _ _ _ = _ |- _ => rewrite H in *; clear H
  | H : DeserializeMetadata _ _ _ = _ |- _ => rewrite H in *; clear H
  | H : Deserialize _ _ _ _ = _ |- _ => rewrite H in *; clear H
  | |- context [DeserializeFieldAsInt64 ?a ?b ?c ?d] =>
      destruct (DeserializeFieldAsInt64 a b c d) eqn:?
  | |- context [Z.eqb ?a ?b] => destruct (Z.eqb_spec a b)
  | |- context [Z.ltb ?a ?b] => destruct (Z.ltb_spec a b)
  | |- context [Z.gtb ?a ?b] => destruct (Z.gtb_spec a b)
  | |- context [DeserializeMetadata ?a ?b ?c] =>
      destruct (DeserializeMetadata a b c) as [[?|]|] eqn:?
  | |- context [Deserialize ?a ?b ?c ?d] =>
      destruct (Deserialize a b c d) eqn:?
  | |- context [ChaincodeParameters_Equal ?a ?b] =>
      destruct (ChaincodeParameters_Equal a b) eqn:?
  | |- context [Serialize ?a ?b ?c ?d] =>
      destruct (Serialize a b c d) as [? [?|]] eqn:?
  | |- context [match ?h with Some _ => _ | None => _ end] =>
      is_var h; destruct h
  | _ => progress simpl in *
  end.

(** ** [ChaincodeParameters.Equal] *)

(** X1.  Success of [Equal] is an equivalence relation on parameters: every
    value equals itself, the order of receiver and argument does not matter,
    and equality chains. *)
Theorem ChaincodeParameters_Equal_equivalence :
  (∀ cp, ChaincodeParameters_Equal cp cp = None)
  ∧ (∀ cp ocp,
       ChaincodeParameters_Equal cp ocp = None →
       ChaincodeParameters_Equal ocp cp = None)
  ∧ (∀ cp1 cp2 cp3 : ChaincodeParameters CCP,
       ChaincodeParameters_Equal cp1 cp2 = None →
       ChaincodeParameters_Equal cp2 cp3 = None →
       ChaincodeParameters_Equal cp1 cp3 = None).
Proof.
  split; [|split]; intros *; rewrite !ChaincodeParameters_Equal_None;
    unfold parameters_agree; intuition congruence.
Qed.

(** X2.  The result of [Equal], error message included, depends on five
    fields only: version, endorsement plugin, validation plugin, validation
    parameter and collections.  [InitRequired] is not compared. *)
Theorem ChaincodeParameters_Equal_compared_fields cp cp' ocp ocp' :
  parameters_agree cp cp' → parameters_agree ocp ocp' →
  ChaincodeParameters_Equal cp ocp = ChaincodeParameters_Equal cp' ocp'.
Proof.
  intros (Hv & Hep & Hvp & Hparam & Hc) (Hv' & Hep' & Hvp' & Hparam' & Hc').
  unfold ChaincodeParameters_Equal.
  by rewrite Hv, Hep, Hvp, Hparam, Hc, Hv', Hep', Hvp', Hparam', Hc'.
Qed.

(** ** [ChaincodeDefinitionIfDefined] and [QueryChaincodeDefinition] *)

(** X3.  [ChaincodeDefinitionIfDefined] returns a definition exactly when it
    reports the name as defined, and then without an error; an error always
    comes with [false] and no definition. *)
Theorem ChaincodeDefinitionIfDefined_shape
    (LifecycleNamespace : string) name (state : St) :
  (∃ definition,
     ChaincodeDefinitionIfDefined LifecycleNamespace name state
     = (true, Some definition, None))
  ∨ (∃ err,
       ChaincodeDefinitionIfDefined LifecycleNamespace name state
       = (false, None, err)).
Proof.
  unfold ChaincodeDefinitionIfDefined.
  destruct (String.eqb name LifecycleNamespace); [eauto|].
  destruct (DeserializeMetadata NamespacesName name state) as [[metadata|]|err];
    [|eauto..].
  destruct (negb _); [eauto|].
  destruct (Deserialize NamespacesName name metadata state); eauto.
Qed.

(** X4.  Outside the lifecycle's own namespace the two lookups agree: a name
    that [ChaincodeDefinitionIfDefined] reports as defined is returned, with
    the same definition, by [QueryChaincodeDefinition]; and a definition that
    [QueryChaincodeDefinition] returns for metadata carrying the
    chaincode-definition tag is the one [ChaincodeDefinitionIfDefined]
    reports. *)
Theorem ChaincodeDefinitionIfDefined_QueryChaincodeDefinition
    (LifecycleNamespace : string) name (state : St) :
  name ≠ LifecycleNamespace →
  (∀ definition err,
     ChaincodeDefinitionIfDefined LifecycleNamespace name state
       = (true, definition, err) →
     ∃ definedChaincode,
       definition = Some definedChaincode ∧ err = None
       ∧ QueryChaincodeDefinition name state = Ok definedChaincode)
  ∧ (∀ metadata definedChaincode,
       DeserializeMetadata NamespacesName name state = Ok (Some metadata) →
       Datatype metadata = ChaincodeDefinitionType →
       QueryChaincodeDefinition name state = Ok definedChaincode →
       ChaincodeDefinitionIfDefined LifecycleNamespace name state
       = (true, Some definedChaincode, None)).
Proof.
  intros Hname. unfold ChaincodeDefinitionIfDefined, QueryChaincodeDefinition.
  destruct (String.eqb_spec name LifecycleNamespace); [done|].
  split.
  - intros definition err.
    destruct (DeserializeMetadata NamespacesName name state)
      as [[metadata|]|err']; [|done..].
    destruct (negb _); [done|].
    destruct (Deserialize NamespacesName name metadata state); [|done].
    intros [= <- <-]. eauto.
  - intros metadata definedChaincode -> Htag.
    rewrite Htag. simpl.
    destruct (Deserialize NamespacesName name metadata state); [|done].
    by intros [= ->].
Qed.

(** ** [ApproveChaincodeDefinitionForOrg] *)

(** X5.  An accepted approval is for the current sequence or for the next one:
    the requested sequence lies between the current sequence and the code's
    [current+1], the two are not both zero, and for an [int64] current
    sequence this means that the current sequence is not the largest [int64]
    and the requested one is it or its successor; when the current sequence
    is not negative the requested one is at least 1. *)
Theorem ApproveChaincodeDefinitionForOrg_accepted_sequence
    name cd localPackageHash publicState orgState orgState' :
  ApproveChaincodeDefinitionForOrg name cd localPackageHash publicState orgState
    = (orgState', None) →
  ∃ currentSequence,
    DeserializeFieldAsInt64 NamespacesName name "Sequence" publicState
      = Ok currentSequence
    ∧ (currentSequence ≤ Sequence cd ≤ add64 currentSequence 1)%Z
    ∧ ¬ (Sequence cd = 0 ∧ currentSequence = 0)%Z
    ∧ (int64_range currentSequence →
       (currentSequence < int64_max)%Z
       ∧ (Sequence cd = currentSequence ∨ Sequence cd = currentSequence + 1)%Z
       ∧ ((0 ≤ currentSequence)%Z → (1 ≤ Sequence cd)%Z)).
Proof.
  unfold ApproveChaincodeDefinitionForOrg.
  destruct (DeserializeFieldAsInt64 NamespacesName name "Sequence" publicState)
    as [currentSequence|]; [|done].
  simpl.
  assert ((currentSequence ≤ Sequence cd ≤ add64 currentSequence 1)%Z →
          ¬ (Sequence cd = 0 ∧ currentSequence = 0)%Z →
          ∃ currentSequence0,
            Ok currentSequence = Ok currentSequence0
            ∧ (currentSequence0 ≤ Sequence cd ≤ add64 currentSequence0 1)%Z
            ∧ ¬ (Sequence cd = 0 ∧ currentSequence0 = 0)%Z
            ∧ (int64_range currentSequence0 →
               (currentSequence0 < int64_max)%Z
               ∧ (Sequence cd = currentSequence0
                  ∨ Sequence cd = currentSequence0 + 1)%Z
               ∧ ((0 ≤ currentSequence0)%Z → (1 ≤ Sequence cd)%Z))) as Hwindow.
  { intros Hwin Hzero. exists currentSequence.
    split; [done|]. split; [done|]. split; [done|]. intros Hrange.
    destruct (sequence_window _ _ Hwin Hrange) as [Hmax Hcases].
    split; [done|]. split; [done|]. lia. }
  destruct (Z.eqb_spec currentSequence (Sequence cd)) as [Heq|Hne];
    destruct (Z.eqb_spec (Sequence cd) 0) as [Hz|Hnz]; simpl; [done|..];
    (destruct (Z.ltb_spec (Sequence cd) currentSequence); [done|]);
    (destruct (Z.gtb_spec (Sequence cd) (add64 currentSequence 1)); [done|]);
    intros _; apply Hwindow; lia.
Qed.

(** X6.  An approval of the next sequence (the current sequence being an
    [int64] below the largest one) is not compared with anything: whatever
    the public state holds about the committed definition, the call performs
    the writes of the approval and succeeds exactly when they do. *)
Theorem ApproveChaincodeDefinitionForOrg_next_sequence
    name cd localPackageHash publicState orgState currentSequence :
  DeserializeFieldAsInt64 NamespacesName name "Sequence" publicState
    = Ok currentSequence →
  int64_range currentSequence → (currentSequence < int64_max)%Z →
  Sequence cd = (currentSequence + 1)%Z →
  (ApproveChaincodeDefinitionForOrg name cd localPackageHash publicState orgState).1
    = (approval_writes name cd localPackageHash orgState).1
  ∧ ((ApproveChaincodeDefinitionForOrg name cd localPackageHash publicState
        orgState).2 = None
     ↔ (approval_writes name cd localPackageHash orgState).2 = None).
Proof.
  intros Hread Hrange Hmax Hnext.
  pose proof (add64_succ _ Hrange Hmax) as Hsucc.
  unfold ApproveChaincodeDefinitionForOrg. rewrite Hread, Hsucc, Hnext. simpl.
  destruct (Z.eqb_spec currentSequence (currentSequence + 1)); [lia|]. simpl.
  destruct (Z.ltb_spec (currentSequence + 1) currentSequence); [lia|].
  destruct (Z.gtb_spec (currentSequence + 1) (currentSequence + 1)); [lia|].
  destruct (Z.eqb_spec (currentSequence + 1) currentSequence); [lia|].
  unfold approval_writes, private_name. rewrite Hnext.
  destruct (Serialize NamespacesName _ _ orgState) as [orgState1 [err|]];
    simpl; [done|].
  destruct localPackageHash as [hash|]; simpl; [|done].
  by destruct (Serialize ChaincodeSourcesName _ _ orgState1) as [orgState2 [err|]].
Qed.

(** X7.  When the current sequence is the largest [int64], no approval is
    accepted, whatever [int64] sequence it requests: the code's [current+1]
    has wrapped to the smallest [int64]. *)
Theorem ApproveChaincodeDefinitionForOrg_at_largest_sequence
    name cd localPackageHash publicState orgState :
  DeserializeFieldAsInt64 NamespacesName name "Sequence" publicState
    = Ok int64_max →
  int64_range (Sequence cd) →
  ∃ err,
    ApproveChaincodeDefinitionForOrg name cd localPackageHash publicState orgState
    = (orgState, Some err).
Proof.
  intros Hread Hrange. unfold ApproveChaincodeDefinitionForOrg.
  rewrite Hread, add64_overflow. cbv zeta.
  destruct (Z.eqb_spec int64_max (Sequence cd));
    destruct (Z.eqb_spec (Sequence cd) 0); cbn [andb]; eauto;
    destruct (Z.ltb_spec (Sequence cd) int64_max); eauto;
    destruct (Z.gtb_spec (Sequence cd) int64_min); eauto;
    unfold int64_range, int64_min, int64_max in *; lia.
Qed.

(** X8.  Supplying a package hash only adds the package write: an approval
    with a hash is the approval without one followed, when that one is
    accepted, by the write of the package record at [name#sequence]; when the
    approval without a hash is refused, so is the one with a hash, with the
    same error and the same state. *)
Theorem ApproveChaincodeDefinitionForOrg_with_hash
    name cd (hash : list byte) publicState orgState :
  ApproveChaincodeDefinitionForOrg name cd (Some hash) publicState orgState
  = match ApproveChaincodeDefinitionForOrg name cd None publicState orgState with
    | (orgState1, None) =>
        package_write (private_name name (Sequence cd)) hash orgState1
    | refused => refused
    end.
Proof. approve_flow; by simplify_eq. Qed.

(** X9.  An approval of the committed sequence with parameters that do not
    agree with the committed ones returns the error of the comparison (an
    [Errorf] for the first field that differs) under a fixed message, in
    which the format verbs stay as they are written, and writes nothing. *)
Theorem ApproveChaincodeDefinitionForOrg_mismatch
    name cd localPackageHash publicState orgState metadata definedChaincode :
  DeserializeFieldAsInt64 NamespacesName name "Sequence" publicState
    = Ok (Sequence cd) →
  Sequence cd ≠ 0%Z →
  int64_range (Sequence cd) → (Sequence cd < int64_max)%Z →
  DeserializeMetadata NamespacesName name publicState = Ok (Some metadata) →
  Deserialize NamespacesName name metadata publicState = Ok definedChaincode →
  ¬ parameters_agree (Parameters definedChaincode) (Parameters cd) →
  ∃ msg,
    ChaincodeParameters_Equal (Parameters definedChaincode) (Parameters cd)
      = Some (Errorf msg)
    ∧ ApproveChaincodeDefinitionForOrg name cd localPackageHash publicState
        orgState
      = (orgState,
         Some (WithMessage (Errorf msg)
                 "attempted to define the current sequence (%d) for namespace %s, but")).
Proof.
  intros Hread Hnz Hrange Hmax Hmd Hdef Hdiffer.
  pose proof (add64_succ _ Hrange Hmax) as Hsucc.
  assert (∃ msg, ChaincodeParameters_Equal (Parameters definedChaincode)
                   (Parameters cd) = Some (Errorf msg)) as [msg Hmsg].
  { rewrite <- ChaincodeParameters_Equal_None in Hdiffer.
    unfold ChaincodeParameters_Equal in *.
    repeat (destruct (negb _); [eauto|]). done. }
  exists msg. split; [done|].
  unfold ApproveChaincodeDefinitionForOrg.
  rewrite Hread, Hsucc. simpl. rewrite Z.eqb_refl. simpl.
  destruct (Z.eqb_spec (Sequence cd) 0); [done|].
  destruct (Z.ltb_spec (Sequence cd) (Sequence cd)); [lia|].
  destruct (Z.gtb_spec (Sequence cd) (Sequence cd + 1)); [lia|].
  by rewrite Hmd, Hdef, Hmsg.
Qed.

(** X10.  [InitRequired] does not take part in the re-approval of a committed
    sequence: if the proposed parameters agree with the committed ones, the
    same proposal with any [InitRequired] flag passes the comparison too; the
    call performs the writes of that proposal and succeeds exactly when they
    do. *)
Theorem ApproveChaincodeDefinitionForOrg_InitRequired
    name cd (b : bool) localPackageHash publicState orgState
    metadata definedChaincode :
  DeserializeFieldAsInt64 NamespacesName name "Sequence" publicState
    = Ok (Sequence cd) →
  Sequence cd ≠ 0%Z →
  int64_range (Sequence cd) → (Sequence cd < int64_max)%Z →
  DeserializeMetadata NamespacesName name publicState = Ok (Some metadata) →
  Deserialize NamespacesName name metadata publicState = Ok definedChaincode →
  parameters_agree (Parameters definedChaincode) (Parameters cd) →
  (ApproveChaincodeDefinitionForOrg name (definition_with_InitRequired b cd)
     localPackageHash publicState orgState).1
    = (approval_writes name (definition_with_InitRequired b cd)
         localPackageHash orgState).1
  ∧ ((ApproveChaincodeDefinitionForOrg name (definition_with_InitRequired b cd)
        localPackageHash publicState orgState).2 = None
     ↔ (approval_writes name (definition_with_InitRequired b cd)
          localPackageHash orgState).2 = None).
Proof.
  intros Hread Hnz Hrange Hmax Hmd Hdef Hagree.
  pose proof (add64_succ _ Hrange Hmax) as Hsucc.
  assert (ChaincodeParameters_Equal (Parameters definedChaincode)
            (Parameters (definition_with_InitRequired b cd)) = None) as Heq.
  { apply ChaincodeParameters_Equal_None. exact Hagree. }
  unfold ApproveChaincodeDefinitionForOrg.
  change (Sequence (definition_with_InitRequired b cd)) with (Sequence cd).
  rewrite Hread, Hsucc. simpl. rewrite Z.eqb_refl. simpl.
  destruct (Z.eqb_spec (Sequence cd) 0); [done|].
  destruct (Z.ltb_spec (Sequence cd) (Sequence cd)); [lia|].
  destruct (Z.gtb_spec (Sequence cd) (Sequence cd + 1)); [lia|].
  rewrite Hmd, Hdef, Heq.
  unfold approval_writes, private_name.
  change (Sequence (definition_with_InitRequired b cd)) with (Sequence cd).
  destruct (Serialize NamespacesName _ _ orgState) as [orgState1 [err|]];
    simpl; [done|].
  destruct localPackageHash as [hash|]; simpl; [|done].
  by destruct (Serialize ChaincodeSourcesName _ _ orgState1) as [orgState2 [err|]].
Qed.

End MoreProperties.

(** ** [CommitChaincodeDefinition] *)

Section MoreCommitProperties.

Context {CCP : Type} `{!EqDecision CCP}.
Context {St OSt : Type} `{!Serializer CCP St OSt}.

Implicit Types (name : string) (cd : ChaincodeDefinition CCP).
Implicit Types (publicState : St) (orgStates : list OSt).

Lemma CommitChaincodeDefinition_Ok_inv
    name cd publicState orgStates publicState' agreement :
  CommitChaincodeDefinition name cd publicState orgStates
    = (publicState', Ok agreement) →
  ∃ currentSequence,
    DeserializeFieldAsInt64 NamespacesName name "Sequence" publicState
      = Ok currentSequence
    ∧ Sequence cd = add64 currentSequence 1
    ∧ Serialize NamespacesName name (SDefinition cd) publicState
      = (publicState', None)
    ∧ agreement
      = (agrees (private_name name (Sequence cd)) (Parameters cd) <$> orgStates).
Proof.
  unfold CommitChaincodeDefinition.
  destruct (DeserializeFieldAsInt64 _ _ _ _) as [currentSequence|]; [|done].
  destruct (Z.eqb_spec (Sequence cd) (add64 currentSequence 1)); [|done].
  simpl. fold (private_name name (Sequence cd)).
  rewrite agreement_loop_replicate.
  destruct (Serialize _ _ _ publicState) as [? [?|]]; intros [= <- <-]; eauto.
Qed.

Lemma CommitChaincodeDefinition_rejected
    name cd publicState orgStates currentSequence :
  DeserializeFieldAsInt64 NamespacesName name "Sequence" publicState
    = Ok currentSequence →
  Sequence cd ≠ add64 currentSequence 1 →
  ∃ err,
    CommitChaincodeDefinition name cd publicState orgStates
    = (publicState, Err err).
Proof.
  intros Hread Hseq. unfold CommitChaincodeDefinition. rewrite Hread.
  destruct (Z.eqb_spec (Sequence cd) (add64 currentSequence 1)); [done|].
  simpl. eauto.
Qed.

(** X11.  A commit that succeeds has read a current sequence, its definition
    carries the code's [current+1], the public state it leaves is the one a
    successful [Serialize] of the definition leaves, and the agreement it
    returns has, for every organisation state in order, whether
    [IsSerialized] found the proposed parameters at [name#sequence]. *)
Theorem CommitChaincodeDefinition_accepted
    name cd publicState orgStates publicState' agreement :
  CommitChaincodeDefinition name cd publicState orgStates
    = (publicState', Ok agreement) →
  ∃ currentSequence,
    DeserializeFieldAsInt64 NamespacesName name "Sequence" publicState
      = Ok currentSequence
    ∧ Sequence cd = add64 currentSequence 1
    ∧ Serialize NamespacesName name (SDefinition cd) publicState
      = (publicState', None)
    ∧ agreement
      = (agrees (private_name name (Sequence cd)) (Parameters cd) <$> orgStates).
Proof.
  intros Hcommit.
  destruct (CommitChaincodeDefinition_Ok_inv _ _ _ _ _ _ Hcommit)
    as (currentSequence & Hread & Hseq & Hwrite & Hagreement).
  exists currentSequence. by repeat split.
Qed.

(** X12.  No re-commit: when the serializer reads back the sequence it has
    written, then after a successful commit of a definition every further
    commit under that name is refused, with the public state untouched,
    unless it carries the code's successor of the committed sequence; a
    second commit of the same sequence is always refused. *)
Theorem CommitChaincodeDefinition_no_recommit
    name cd publicState orgStates publicState' agreement :
  sequence_reads_back →
  CommitChaincodeDefinition name cd publicState orgStates
    = (publicState', Ok agreement) →
  ∀ cd' orgStates',
    Sequence cd' = Sequence cd ∨ Sequence cd' ≠ add64 (Sequence cd) 1 →
    ∃ err,
      CommitChaincodeDefinition name cd' publicState' orgStates'
      = (publicState', Err err).
Proof.
  intros Hlaw Hcommit cd' orgStates' Hseq'.
  destruct (CommitChaincodeDefinition_Ok_inv _ _ _ _ _ _ Hcommit)
    as (currentSequence & _ & _ & Hwrite & _).
  apply Hlaw in Hwrite.
  apply (CommitChaincodeDefinition_rejected _ _ _ _ _ Hwrite).
  destruct Hseq' as [->|Hne]; [|done].
  intros Heq. symmetry in Heq. by apply add64_neq in Heq.
Qed.

(** X13.  The sequence advances by exactly one with each commit: when the
    serializer reads back the sequence it has written, a run of successful
    commits that starts at current sequence [c] and stays within [int64]
    consists of definitions with the sequences [c+1], [c+2], ... in this
    order, and leaves the current sequence at [c] plus the number of
    commits. *)
Theorem commit_all_sequence name
    (proposals : list (ChaincodeDefinition CCP * list OSt)) :
  sequence_reads_back →
  ∀ publicState publicState' (c : Z),
    DeserializeFieldAsInt64 NamespacesName name "Sequence" publicState = Ok c →
    int64_range c →
    (c + Z.of_nat (length proposals) ≤ int64_max)%Z →
    commit_all name proposals publicState = (publicState', true) →
    ((λ p, Sequence p.1) <$> proposals)
      = seqZ (c + 1) (Z.of_nat (length proposals))
    ∧ DeserializeFieldAsInt64 NamespacesName name "Sequence" publicState'
      = Ok (c + Z.of_nat (length proposals))%Z.
Proof.
  intros Hlaw.
  induction proposals as [|[cd orgStates] proposals IH];
    intros publicState publicState' c Hread Hrange Hbound.
  - intros [= <-]. simpl. by rewrite Z.add_0_r.
  - rewrite length_cons, Nat2Z.inj_succ in *. cbn [commit_all].
    destruct (CommitChaincodeDefinition name cd publicState orgStates)
      as [publicState1 [agreement|err]] eqn:Hcommit; [|done].
    intros Hrest.
    destruct (CommitChaincodeDefinition_Ok_inv _ _ _ _ _ _ Hcommit)
      as (c' & Hread' & Hseq & Hwrite & _).
    rewrite Hread in Hread'. injection Hread' as <-.
    rewrite add64_succ in Hseq by (done || lia).
    apply Hlaw in Hwrite. rewrite Hseq in Hwrite.
    destruct (IH publicState1 publicState' (c + 1)%Z Hwrite) as [Hseqs Hlast];
      [unfold int64_range, int64_min, int64_max in *; lia | lia | done |].
    split.
    + rewrite seqZ_cons by lia. rewrite fmap_cons. cbn [fst].
      f_equal; [done|]. rewrite Hseqs. f_equal; lia.
    + rewrite Hlast. f_equal. lia.
Qed.

(** X14.  The agreement is computed organisation by organisation: a
    successful commit with the organisation states [l1 ++ l2] returns the
    agreement of the commit with [l1] followed by the agreement of the commit
    with [l2], and the three commits leave the same public state. *)
Theorem CommitChaincodeDefinition_agreement_app
    name cd publicState (orgStates1 orgStates2 : list OSt)
    publicState' agreement :
  CommitChaincodeDefinition name cd publicState (orgStates1 ++ orgStates2)
    = (publicState', Ok agreement) →
  ∃ agreement1 agreement2,
    agreement = agreement1 ++ agreement2
    ∧ CommitChaincodeDefinition name cd publicState orgStates1
      = (publicState', Ok agreement1)
    ∧ CommitChaincodeDefinition name cd publicState orgStates2
      = (publicState', Ok agreement2).
Proof.
  intros Hcommit.
  destruct (CommitChaincodeDefinition_Ok_inv _ _ _ _ _ _ Hcommit)
    as (currentSequence & Hread & Hseq & Hwrite & ->).
  exists (agrees (private_name name (Sequence cd)) (Parameters cd) <$> orgStates1),
         (agrees (private_name name (Sequence cd)) (Parameters cd) <$> orgStates2).
  split; [apply fmap_app|].
  unfold CommitChaincodeDefinition. rewrite Hread.
  destruct (Z.eqb_spec (Sequence cd) (add64 currentSequence 1)); [|done].
  simpl. fold (private_name name (Sequence cd)).
  by rewrite !agreement_loop_replicate, Hwrite.
Qed.

(** X15.  At the largest [int64] the sequence check wraps: the only sequence a
    commit accepts is the smallest [int64]; every other sequence is refused
    with the public state untouched. *)
Theorem CommitChaincodeDefinition_at_largest_sequence
    name cd publicState orgStates :
  DeserializeFieldAsInt64 NamespacesName name "Sequence" publicState
    = Ok int64_max →
  (Sequence cd ≠ int64_min →
   ∃ err,
     CommitChaincodeDefinition name cd publicState orgStates
     = (publicState, Err err))
  ∧ (Sequence cd = int64_min →
     (CommitChaincodeDefinition name cd publicState orgStates).1
       = (Serialize NamespacesName name (SDefinition cd) publicState).1
     ∧ (is_Ok (CommitChaincodeDefinition name cd publicState orgStates).2 = true
        ↔ (Serialize NamespacesName name (SDefinition cd) publicState).2 = None)).
Proof.
  intros Hread. split.
  - intros Hseq. apply (CommitChaincodeDefinition_rejected _ _ _ _ _ Hread).
    by rewrite add64_overflow.
  - intros Hseq. unfold CommitChaincodeDefinition.
    rewrite Hread, add64_overflow, Hseq, Z.eqb_refl. cbn [negb].
    by destruct (Serialize NamespacesName name (SDefinition cd) publicState)
      as [publicState' [err|]].
Qed.

(** ** [QueryNamespaceDefinitions] *)

(** X16.  The labels do not tell a chaincode definition from a namespace
    whose raw type tag is the friendly name itself: a namespace is listed as
    [Chaincode] exactly when its tag is [ChaincodeDefinition] or
    [Chaincode]. *)
Theorem QueryNamespaceDefinitions_friendly_name
    publicState (metadatas : gmap string StateMetadata) :
  DeserializeAllMetadata NamespacesName publicState = Ok metadatas →
  ∃ labels : gmap string string,
    QueryNamespaceDefinitions publicState = Ok labels
    ∧ ∀ key,
        labels !! key = Some FriendlyChaincodeDefinitionType
        ↔ ∃ value,
            metadatas !! key = Some value
            ∧ (Datatype value = ChaincodeDefinitionType
               ∨ Datatype value = FriendlyChaincodeDefinitionType).
Proof.
  intros Hall. unfold QueryNamespaceDefinitions. rewrite Hall.
  rewrite namespace_entries_fmap. eexists. split; [done|].
  intros key. rewrite lookup_fmap. unfold friendly_name.
  destruct (metadatas !! key) as [value|]; simpl.
  - case_bool_decide as Htag; split.
    + intros _. eauto.
    + done.
    + intros [= Hraw]. eauto.
    + intros (value' & [= <-] & [Hdef|Hraw]); [done|by rewrite Hraw].
  - split; [done|]. by intros (value & ? & _).
Qed.

End MoreCommitProperties.

(** ** [QueryInstalledChaincode] *)

Section MoreInstallProperties.

Context {CS IC : Type} `{!ChaincodeStoreReader CS IC}.

(** X17.  The lookup of an installed chaincode goes through the identifier
    [name:version] alone: a colon in the name or in the version makes two
    different pairs indistinguishable, in the hash returned and in the error
    reported. *)
Theorem QueryInstalledChaincode_composite_id (a b c : string) (store : CS) :
  QueryInstalledChaincode (a +:+ ":" +:+ b) c store
  = QueryInstalledChaincode a (b +:+ ":" +:+ c) store.
Proof.
  unfold QueryInstalledChaincode.
  replace ((a +:+ ":" +:+ b) +:+ ":" +:+ c) with (a +:+ ":" +:+ b +:+ ":" +:+ c)
    by (by rewrite !string_app_assoc).
  destruct (RetrieveHash _ store) as [hash|err]; [done|].
  do 2 f_equal.
  change ("could not retrieve hash for chaincode '" +:+ ?x)
    with (String.append "could not retrieve hash for chaincode '" x).
  by rewrite !string_app_assoc.
Qed.

End MoreInstallProperties.

(** ** Approvals and commits together *)

Section Protocol.

Context {CCP : Type} `{!EqDecision CCP}.
Context {St OSt : Type} `{!Serializer CCP St OSt}.

Implicit Types (name : string) (cd : ChaincodeDefinition CCP).
Implicit Types (publicState orgState : St) (orgStates : list OSt).

Lemma approval_writes_agree (view : St → OSt)
    name cd localPackageHash orgState orgState' :
  writes_read_back view → sources_apart view →
  approval_writes name cd localPackageHash orgState = (orgState', None) →
  agrees (private_name name (Sequence cd)) (Parameters cd) (view orgState')
  = true.
Proof.
  intros Hback Hapart. unfold approval_writes, agrees.
  destruct (Serialize NamespacesName _ _ orgState) as [orgState1 [err|]]
    eqn:Hparams; [done|].
  apply Hback in Hparams. intros Hrest. apply bool_decide_eq_true_2.
  destruct localPackageHash as [hash|].
  - apply (Hapart (private_name name (Sequence cd)) _
             (SParameters (Parameters cd))) in Hrest. congruence.
  - by injection Hrest as <-.
Qed.

(** X19.  An organisation that approved is counted as agreeing: when the
    serializer finds what it has written, and writes in the chaincode-sources
    scope leave the namespaces scope alone, then the state an accepted
    approval of a definition leaves gets the entry [true], at its position,
    in the agreement of every successful commit of that definition. *)
Theorem approved_organisation_agrees (view : St → OSt)
    name cd localPackageHash publicState orgState orgState' :
  writes_read_back view → sources_apart view →
  ApproveChaincodeDefinitionForOrg name cd localPackageHash publicState orgState
    = (orgState', None) →
  ∀ publicState2 publicState2' (before after : list OSt) agreement,
    CommitChaincodeDefinition name cd publicState2
      (before ++ view orgState' :: after) = (publicState2', Ok agreement) →
    agreement !! length before = Some true.
Proof.
  intros Hback Hapart Happrove publicState2 publicState2' before after
    agreement Hcommit.
  apply ApproveChaincodeDefinitionForOrg_accepted_inv in Happrove.
  apply (approval_writes_agree view) in Happrove; [|done..].
  destruct (CommitChaincodeDefinition_Ok_inv _ _ _ _ _ _ Hcommit)
    as (currentSequence & _ & _ & _ & ->).
  rewrite list_lookup_fmap, lookup_app_r, Nat.sub_diag by done.
  simpl. by rewrite Happrove.
Qed.

(** X20.  A committed definition is what the lookups return: when the
    serializer reads back the definition it has written, then after a
    successful commit [QueryChaincodeDefinition] returns the committed
    definition, and so does [ChaincodeDefinitionIfDefined] for every name
    but the lifecycle's own. *)
Theorem committed_definition_is_defined (LifecycleNamespace : string)
    name cd publicState orgStates publicState' agreement :
  definition_reads_back →
  CommitChaincodeDefinition name cd publicState orgStates
    = (publicState', Ok agreement) →
  QueryChaincodeDefinition name publicState' = Ok cd
  ∧ (name ≠ LifecycleNamespace →
     ChaincodeDefinitionIfDefined LifecycleNamespace name publicState'
     = (true, Some cd, None)).
Proof.
  intros Hlaw Hcommit.
  destruct (CommitChaincodeDefinition_Ok_inv _ _ _ _ _ _ Hcommit)
    as (currentSequence & _ & _ & Hwrite & _).
  destruct (Hlaw _ _ _ _ Hwrite) as (metadata & Hmd & Htag & Hdef).
  unfold QueryChaincodeDefinition, ChaincodeDefinitionIfDefined.
  rewrite Hmd, Hdef, Htag. split; [done|]. intros Hname.
  by destruct (String.eqb_spec name LifecycleNamespace).
Qed.

(** X21.  After a commit the committed sequence can be approved with the
    committed parameters and with no others: when the serializer reads back
    the sequence and the definition it has written, an approval at the
    committed sequence (not zero, below the largest [int64]) whose parameters
    agree with the committed ones performs its writes and succeeds exactly
    when they do, and one whose parameters do not agree is refused without a
    write. *)
Theorem committed_sequence_reapproval
    name cd publicState orgStates publicState' agreement :
  sequence_reads_back → definition_reads_back →
  CommitChaincodeDefinition name cd publicState orgStates
    = (publicState', Ok agreement) →
  Sequence cd ≠ 0%Z → int64_range (Sequence cd) → (Sequence cd < int64_max)%Z →
  ∀ cd' localPackageHash orgState,
    Sequence cd' = Sequence cd →
    (parameters_agree (Parameters cd) (Parameters cd') →
     (ApproveChaincodeDefinitionForOrg name cd' localPackageHash publicState'
        orgState).1
       = (approval_writes name cd' localPackageHash orgState).1
     ∧ ((ApproveChaincodeDefinitionForOrg name cd' localPackageHash publicState'
           orgState).2 = None
        ↔ (approval_writes name cd' localPackageHash orgState).2 = None))
    ∧ (¬ parameters_agree (Parameters cd) (Parameters cd') →
       ∃ err,
         ApproveChaincodeDefinitionForOrg name cd' localPackageHash publicState'
           orgState = (orgState, Some err)).
Proof.
  intros Hseqlaw Hdeflaw Hcommit Hnz Hrange Hmax cd' localPackageHash orgState
    Hsame.
  destruct (CommitChaincodeDefinition_Ok_inv _ _ _ _ _ _ Hcommit)
    as (currentSequence & _ & _ & Hwrite & _).
  pose proof (Hseqlaw _ _ _ _ Hwrite) as Hread.
  destruct (Hdeflaw _ _ _ _ Hwrite) as (metadata & Hmd & _ & Hdef).
  pose proof (add64_succ _ Hrange Hmax) as Hsucc.
  unfold ApproveChaincodeDefinitionForOrg.
  rewrite Hread, Hsucc, Hsame. simpl. rewrite Z.eqb_refl. simpl.
  destruct (Z.eqb_spec (Sequence cd) 0); [done|].
  destruct (Z.ltb_spec (Sequence cd) (Sequence cd)); [lia|].
  destruct (Z.gtb_spec (Sequence cd) (Sequence cd + 1)); [lia|].
  rewrite Hmd, Hdef.
  destruct (ChaincodeParameters_Equal (Parameters cd) (Parameters cd'))
    as [err|] eqn:Heq.
  - split; [|eauto]. intros Hagree%ChaincodeParameters_Equal_None. congruence.
  - apply ChaincodeParameters_Equal_None in Heq. split; [|done]. intros _.
    unfold approval_writes, private_name. rewrite Hsame.
    destruct (Serialize NamespacesName _ _ orgState) as [orgState1 [err|]];
      simpl; [done|].
    destruct localPackageHash as [hash|]; simpl; [|done].
    by destruct (Serialize ChaincodeSourcesName _ _ orgState1)
      as [orgState2 [err|]].
Qed.

End Protocol.

(** ** The reference implementation meets the expectations *)

Section MemoryLaws.

Context {CCP : Type} `{!EqDecision CCP}.

Lemma kv_definition_reads_back :
  @definition_reads_back CCP (KVState CCP) (KVState CCP) KVSerializer.
Proof.
  intros name cd st st' Hwrite. simpl in *.
  apply kv_Serialize_stored in Hwrite as [[Hnf Hmd] Hfields].
  pose proof (Hfields "Sequence" (DInt64 (Sequence cd))
                ltac:(simpl; auto using list_elem_of_here, list_elem_of_further))
    as [Hnf0 Hl0].
  pose proof (Hfields "EndorsementInfo" (DEndorsementInfo (cd_EndorsementInfo cd))
                ltac:(simpl; auto using list_elem_of_here, list_elem_of_further))
    as [Hnf1 Hl1].
  pose proof (Hfields "ValidationInfo" (DValidationInfo (cd_ValidationInfo cd))
                ltac:(simpl; auto using list_elem_of_here, list_elem_of_further))
    as [Hnf2 Hl2].
  pose proof (Hfields "Collections" (DCollections (cd_Collections cd))
                ltac:(simpl; auto using list_elem_of_here, list_elem_of_further))
    as [Hnf3 Hl3].
  exists (metadata_of (SDefinition cd)). split; [|split; [done|]].
  - unfold kv_DeserializeMetadata. by rewrite GetState_not_faulty, Hmd.
  - unfold kv_Deserialize.
    rewrite !GetState_not_faulty, Hl0, Hl1, Hl2, Hl3 by done.
    simpl. by destruct cd.
Qed.

Lemma kv_writes_read_back :
  @writes_read_back CCP (KVState CCP) (KVState CCP) KVSerializer id.
Proof. intros namespace name s st st'. apply kv_Serialize_IsSerialized. Qed.

Lemma kv_sources_apart :
  @sources_apart CCP (KVState CCP) (KVState CCP) KVSerializer id.
Proof.
  intros name name' s lp st st' r Hwrite. simpl in *.
  apply kv_Serialize_frame in Hwrite as [Hfaulty Hframe].
  apply kv_IsSerialized_ext; [done|].
  intros key [rest ->]%written_keys_namespaces. apply Hframe.
  intros [rest' [=]]%written_keys_sources.
Qed.

End MemoryLaws.

(** ** The reference implementation reads the sequence back *)

Lemma kv_sequence_reads_back {CCP : Type} `{!EqDecision CCP} :
  @sequence_reads_back CCP (KVState CCP) (KVState CCP) KVSerializer.
Proof.
  intros name cd st st' Hwrite. simpl in *.
  apply kv_Serialize_stored in Hwrite as [_ Hfields].
  destruct (Hfields "Sequence" (DInt64 (Sequence cd))) as [Hnf Hl];
    [simpl; apply list_elem_of_here|].
  unfold kv_DeserializeFieldAsInt64. by rewrite GetState_not_faulty, Hl.
Qed.

(** * The reference implementation at work *)

(** ** The scenarios of the spec *)

(** Scenario A: approve sequence 1 for Org1, commit it with Org1's state. *)
Example scenario_A :
  ApproveChaincodeDefinitionForOrg "mycc" mycc_v1 None empty_state empty_state
    = (org1_v1, None)
  ∧ CommitChaincodeDefinition "mycc" mycc_v1 empty_state [org1_v1]
    = (public_v1, Ok [true])
  ∧ DeserializeFieldAsInt64 NamespacesName "mycc" "Sequence" public_v1 = Ok 1%Z
  ∧ QueryChaincodeDefinition "mycc" public_v1 = Ok mycc_v1.
Proof. repeat split; vm_compute; reflexivity. Qed.

(** Scenario B: only Org1 approves sequence 2; the commit reports the
    disagreement of Org2 and updates the public definition all the same. *)
Example scenario_B :
  CommitChaincodeDefinition "mycc" mycc_v2 public_v1 [org1_v2; empty_state]
    = (public_v2, Ok [true; false])
  ∧ QueryChaincodeDefinition "mycc" public_v2 = Ok mycc_v2.
Proof. repeat split; vm_compute; reflexivity. Qed.

(** Scenario C: sequence 3 while the public sequence is 1. *)
Example scenario_C :
  ∃ err,
    CommitChaincodeDefinition "mycc" mycc_v3 public_v1 [org1_v1]
    = (public_v1, Err err).
Proof. eexists. vm_compute. reflexivity. Qed.

(** Scenario D: sequence 1 again with other parameters. *)
Example scenario_D :
  ApproveChaincodeDefinitionForOrg "mycc" mycc_v1_other None public_v1 org1_v1
  = (org1_v1,
     Some (WithMessage (Errorf "Version '1.3' != '9.9'")
             "attempted to define the current sequence (%d) for namespace %s, but")).
Proof. vm_compute. reflexivity. Qed.

(** ** Concrete runs of the properties *)

(** C1 on the scenario of the spec: sequence 3 while the public sequence is 1,
    and sequence 2 for a namespace that is not defined (current sequence 0). *)
Lemma CommitChaincodeDefinition_wrong_sequence_witness :
  (∃ err, CommitChaincodeDefinition "mycc" mycc_v3 public_v1 [org1_v1]
          = (public_v1, Err err))
  ∧ (∃ err, CommitChaincodeDefinition "mycc" mycc_v2 empty_state []
            = (empty_state, Err err)).
Proof.
  split; apply CommitChaincodeDefinition_wrong_sequence;
    intros currentSequence Hread; vm_compute in Hread;
    injection Hread as <-; vm_compute; discriminate.
Defined.

(** C2 on the three refusals: sequence 0 on an undefined namespace, sequence 1
    when sequence 2 is committed, sequence 3 when sequence 1 is committed. *)
Lemma ApproveChaincodeDefinitionForOrg_sequence_refused_witness :
  (∃ err, ApproveChaincodeDefinitionForOrg "mycc" mycc_v0 None empty_state org1_v1
          = (org1_v1, Some err))
  ∧ (∃ err, ApproveChaincodeDefinitionForOrg "mycc" mycc_v1 None public_v2 org1_v1
            = (org1_v1, Some err))
  ∧ (∃ err, ApproveChaincodeDefinitionForOrg "mycc" mycc_v3 None public_v1 org1_v1
            = (org1_v1, Some err)).
Proof.
  split; [|split].
  - apply (ApproveChaincodeDefinitionForOrg_sequence_refused
             "mycc" mycc_v0 None empty_state org1_v1 0);
      [vm_compute; reflexivity | left; split; reflexivity].
  - apply (ApproveChaincodeDefinitionForOrg_sequence_refused
             "mycc" mycc_v1 None public_v2 org1_v1 2);
      [vm_compute; reflexivity | right; left; reflexivity].
  - apply (ApproveChaincodeDefinitionForOrg_sequence_refused
             "mycc" mycc_v3 None public_v1 org1_v1 1);
      [vm_compute; reflexivity | right; right; right].
    unfold int64_range, int64_min, int64_max; simpl; lia.
Defined.

(** C3 as stated fails: the proposed parameters are the committed ones, and
    the approval returns an error all the same, because the organisation's
    state refuses the write. *)
Lemma ApproveChaincodeDefinitionForOrg_current_sequence_counterexample :
  DeserializeFieldAsInt64 NamespacesName "mycc" "Sequence" public_v1
    = Ok (Sequence mycc_v1)
  ∧ Sequence mycc_v1 ≠ 0%Z
  ∧ QueryChaincodeDefinition "mycc" public_v1 = Ok mycc_v1
  ∧ ¬ ((ApproveChaincodeDefinitionForOrg "mycc" mycc_v1 None public_v1
          org_parameters_refused).2 = None
       ↔ parameters_agree (Parameters mycc_v1) (Parameters mycc_v1)).
Proof.
  split; [vm_compute; reflexivity|]. split; [discriminate|].
  split; [vm_compute; reflexivity|].
  intros [_ Hsucceeds].
  assert (parameters_agree (Parameters mycc_v1) (Parameters mycc_v1)) as Hagree
    by (by repeat split).
  specialize (Hsucceeds Hagree). vm_compute in Hsucceeds. discriminate.
Qed.

(** C3, amended, on scenario D and on the re-approval of the committed
    parameters. *)
Lemma ApproveChaincodeDefinitionForOrg_current_sequence_witness :
  (ApproveChaincodeDefinitionForOrg "mycc" mycc_v1 (Some [xab]) public_v1
     empty_state).2 = None
  ∧ (ApproveChaincodeDefinitionForOrg "mycc" mycc_v1_other None public_v1
       empty_state).2 ≠ None.
Proof.
  split.
  - apply ApproveChaincodeDefinitionForOrg_current_sequence.
    + vm_compute; reflexivity.
    + discriminate.
    + unfold int64_range, int64_min, int64_max; simpl; lia.
    + unfold int64_max; simpl; lia.
    + split; [|vm_compute; reflexivity].
      exists {| Datatype := "ChaincodeDefinition";
                Fields := ["Sequence"; "EndorsementInfo"; "ValidationInfo";
                           "Collections"] |}, mycc_v1.
      split; [vm_compute; reflexivity|]. split; [vm_compute; reflexivity|].
      by repeat split.
  - intros Hsucceeds.
    apply ApproveChaincodeDefinitionForOrg_current_sequence in Hsucceeds
      as [(metadata & definedChaincode & Hmd & Hdef & Hagree) _].
    + vm_compute in Hmd. injection Hmd as <-.
      vm_compute in Hdef. injection Hdef as <-.
      destruct Hagree as [Hversion _]. vm_compute in Hversion. discriminate.
    + vm_compute; reflexivity.
    + discriminate.
    + unfold int64_range, int64_min, int64_max; simpl; lia.
    + unfold int64_max; simpl; lia.
Defined.

(** C4 on a commit of sequence 2 with three organisations: one approved, one
    never did, one cannot be read. *)
Lemma CommitChaincodeDefinition_agreement_witness :
  ∃ agreement : list bool,
    length agreement = 3%nat
    ∧ agreement !! 0%nat = Some true
    ∧ agreement !! 1%nat = Some false
    ∧ agreement !! 2%nat = Some false
    ∧ (CommitChaincodeDefinition "mycc" mycc_v2 public_v1
         [org1_v2; empty_state; org_unreadable]).2 = Ok agreement.
Proof.
  destruct (CommitChaincodeDefinition_agreement "mycc" mycc_v2 public_v1
              [org1_v2; empty_state; org_unreadable] 1)
    as (agreement & Hlen & Htrue & Hfalse & Hret);
    [vm_compute; reflexivity | reflexivity |].
  exists agreement. split; [exact Hlen|]. split; [|split; [|split]].
  - apply Htrue. exists org1_v2. split; [reflexivity | vm_compute; reflexivity].
  - destruct (agreement !! 1%nat) as [[]|] eqn:Hb; [|done|].
    + destruct (proj1 (Htrue 1%nat) Hb) as (org & [= <-] & Hok).
      vm_compute in Hok. discriminate.
    + apply lookup_ge_None in Hb. simpl in Hlen. lia.
  - eapply (Hfalse 2%nat org_unreadable); [reflexivity | vm_compute; reflexivity].
  - exact Hret.
Defined.

(** C5 on a commit that no organisation agrees with, on one with no
    organisation at all, and on one whose public write is refused. *)
Lemma CommitChaincodeDefinition_public_write_witness :
  (CommitChaincodeDefinition "mycc" mycc_v2 public_v1 [empty_state; empty_state]).1
    = public_v2
  ∧ (CommitChaincodeDefinition "mycc" mycc_v2 public_v1 []).1 = public_v2
  ∧ is_Ok (CommitChaincodeDefinition "mycc" mycc_v2 public_v1 []).2 = true
  ∧ (∃ err,
       (CommitChaincodeDefinition "mycc" mycc_v2 public_write_refused
          [org1_v2]).2 = Err err).
Proof.
  destruct (CommitChaincodeDefinition_public_write "mycc" mycc_v2
              public_write_refused [org1_v2] 1) as (_ & _ & Hrefused);
    [vm_compute; reflexivity | reflexivity |].
  destruct (CommitChaincodeDefinition_public_write "mycc" mycc_v2 public_v1
              [empty_state; empty_state] 1) as (Hst & _ & _);
    [vm_compute; reflexivity | reflexivity |].
  destruct (CommitChaincodeDefinition_public_write "mycc" mycc_v2 public_v1
              [] 1) as (Hst' & Hok & _);
    [vm_compute; reflexivity | reflexivity |].
  split; [|split].
  - rewrite Hst. vm_compute. reflexivity.
  - rewrite Hst'. vm_compute. reflexivity.
  - split; [apply Hok; vm_compute; reflexivity|].
    eexists. apply Hrefused. eexists. split; [vm_compute; reflexivity|reflexivity].
Defined.

(** C6 on an organisation that approves sequence 2 twice before it is
    committed: first with a package, then with other parameters and no
    package.  The first call writes the parameters and the package record; the
    second replaces the parameters at [mycc#2] and leaves the package record
    where it was. *)
Lemma ApproveChaincodeDefinitionForOrg_accepted_writes_witness :
  (∃ orgState1,
     Serialize NamespacesName "mycc#2" (SParameters (Parameters mycc_v2)) org1_v1
       = (orgState1, None)
     ∧ Serialize ChaincodeSourcesName "mycc#2"
         (SLocalPackage {| Hash := [xab] |}) orgState1
       = (org1_v2, None))
  ∧ (∃ orgState',
       ApproveChaincodeDefinitionForOrg "mycc" mycc_v2_other None public_v1 org1_v2
         = (orgState', None)
       ∧ Serialize NamespacesName "mycc#2"
           (SParameters (Parameters mycc_v2_other)) org1_v2
         = (orgState', None)
       ∧ IsSerialized NamespacesName "mycc#2"
           (SParameters (Parameters mycc_v2)) org1_v2 = Ok true
       ∧ IsSerialized NamespacesName "mycc#2"
           (SParameters (Parameters mycc_v2)) orgState' = Ok false
       ∧ IsSerialized NamespacesName "mycc#2"
           (SParameters (Parameters mycc_v2_other)) orgState' = Ok true
       ∧ entries orgState' !! "chaincode-sources/fields/mycc#2/Hash"
         = Some (DBytes [xab])).
Proof.
  split.
  - assert (ApproveChaincodeDefinitionForOrg "mycc" mycc_v2 (Some [xab])
              public_v1 org1_v1 = (org1_v2, None)) as Hfirst
      by (vm_compute; reflexivity).
    exact (ApproveChaincodeDefinitionForOrg_accepted_writes _ _ _ _ _ _ Hfirst).
  - set (r := ApproveChaincodeDefinitionForOrg "mycc" mycc_v2_other None
                public_v1 org1_v2).
    assert (r = (r.1, None)) as Hsecond by (vm_compute; reflexivity).
    destruct (ApproveChaincodeDefinitionForOrg_accepted_writes _ _ _ _ _ _ Hsecond)
      as (orgState1 & Hwrite & Hsame).
    exists r.1. split; [exact Hsecond|]. split; [by rewrite Hsame|].
    repeat split; vm_compute; reflexivity.
Defined.

(** C7 as stated fails: the package record cannot be written, the approval
    returns an error, and the parameters written before it are in the
    organisation's state. *)
Lemma ApproveChaincodeDefinitionForOrg_error_no_write_counterexample :
  ∃ orgState' err,
    ApproveChaincodeDefinitionForOrg "mycc" mycc_v1 (Some [xab]) empty_state
      org_sources_refused = (orgState', Some err)
    ∧ orgState' ≠ org_sources_refused.
Proof.
  set (r := ApproveChaincodeDefinitionForOrg "mycc" mycc_v1 (Some [xab])
              empty_state org_sources_refused).
  exists r.1. eexists. split; [vm_compute; reflexivity|].
  intros Heq.
  apply (f_equal (λ st, entries st !! "namespaces/metadata/mycc#1")) in Heq.
  vm_compute in Heq. discriminate.
Qed.

(** C7, amended, on scenario D and on the refusal of sequence 0. *)
Lemma ApproveChaincodeDefinitionForOrg_validation_error_no_write_witness :
  (ApproveChaincodeDefinitionForOrg "mycc" mycc_v1_other (Some [xab]) public_v1
     org1_v1).1 = org1_v1
  ∧ (ApproveChaincodeDefinitionForOrg "mycc" mycc_v0 (Some [xab]) empty_state
       org1_v1).1 = org1_v1.
Proof.
  split.
  - apply (ApproveChaincodeDefinitionForOrg_validation_error_no_write
             "mycc" mycc_v1_other (Some [xab]) public_v1 org1_v1 _
             (WithMessage (Errorf "Version '1.3' != '9.9'")
                "attempted to define the current sequence (%d) for namespace %s, but"));
      [vm_compute; reflexivity | reflexivity].
  - apply (ApproveChaincodeDefinitionForOrg_validation_error_no_write
             "mycc" mycc_v0 (Some [xab]) empty_state org1_v1 _
             (Errorf
                "requested sequence is 0, but first definable sequence number is 1"));
      [vm_compute; reflexivity | reflexivity].
Defined.

(** C8 on an undefined chaincode name, on a namespace of another type, and
    on the lifecycle's own namespace in two different states. *)
Lemma absent_metadata_asymmetry_witness :
  (∃ err, QueryChaincodeDefinition "mycc" empty_state = Err err)
  ∧ ChaincodeDefinitionIfDefined lifecycle_name "mycc" empty_state
    = (false, None, None)
  ∧ (∃ err, ChaincodeDefinitionIfDefined lifecycle_name "tms" public_foreign
            = (false, None, Some err))
  ∧ ChaincodeDefinitionIfDefined lifecycle_name lifecycle_name empty_state
    = ChaincodeDefinitionIfDefined lifecycle_name lifecycle_name public_foreign.
Proof.
  destruct (absent_metadata_asymmetry lifecycle_name "mycc" empty_state)
    as (Habsent & _ & Hreserved).
  destruct (Habsent ltac:(vm_compute; reflexivity)) as (Hquery & Hifdef).
  destruct (absent_metadata_asymmetry lifecycle_name "tms" public_foreign)
    as (_ & Hforeign & Hreserved').
  split; [exact Hquery|]. split; [apply Hifdef; discriminate|]. split.
  - apply (Hforeign {| Datatype := "TokenManagementSystem"; Fields := [] |});
      [vm_compute; reflexivity | discriminate | discriminate].
  - by rewrite Hreserved, Hreserved'.
Defined.

(** C9 with the recording fakes: an empty package reaches neither the store
    nor the listener; a well-formed one is saved once and notified once; a
    failed save is not notified. *)
Lemma InstallChaincode_effects_witness :
  (∃ err,
     InstallChaincode (Some (RecordingListener byte)) "mycc" "1.3" []
       fresh_store []
     = (fresh_store, [], Err err))
  ∧ InstallChaincode (Some (RecordingListener byte)) "mycc" "1.3" [x07; x08]
      fresh_store []
    = ({| SaveReturns := Ok [x0a; x0b];
          SaveCalls := [("mycc", "1.3", [x07; x08])] |},
       [(x07, [x0a; x0b])],
       Ok [x0a; x0b])
  ∧ (∃ err,
       InstallChaincode (Some (RecordingListener byte)) "mycc" "1.3" [x07; x08]
         failing_store []
       = ({| SaveReturns := Err (Errorf "disk full");
             SaveCalls := [("mycc", "1.3", [x07; x08])] |},
          [], Err err)).
Proof.
  split; [|split].
  - destruct (InstallChaincode_effects (Some (RecordingListener byte))
                "mycc" "1.3" [] fresh_store []) as (Hparse & _ & _).
    exact (Hparse (Errorf "empty package") eq_refl).
  - destruct (InstallChaincode_effects (Some (RecordingListener byte))
                "mycc" "1.3" [x07; x08] fresh_store []) as (_ & _ & Hsaved).
    exact (Hsaved {| Metadata := x07; CodePackage := [x07; x08] |}
             {| SaveReturns := Ok [x0a; x0b];
                SaveCalls := [("mycc", "1.3", [x07; x08])] |}
             [x0a; x0b] eq_refl eq_refl).
  - destruct (InstallChaincode_effects (Some (RecordingListener byte))
                "mycc" "1.3" [x07; x08] failing_store []) as (_ & Hfailed & _).
    exact (Hfailed {| Metadata := x07; CodePackage := [x07; x08] |}
             {| SaveReturns := Err (Errorf "disk full");
                SaveCalls := [("mycc", "1.3", [x07; x08])] |}
             (Errorf "disk full") eq_refl eq_refl).
Defined.

(** C10 on a public state with a chaincode and a namespace of a type this
    code does not know. *)
Lemma QueryNamespaceDefinitions_labels_witness :
  ∃ labels : gmap string string,
    QueryNamespaceDefinitions public_foreign = Ok labels
    ∧ labels !! "mycc" = Some "Chaincode"
    ∧ labels !! "tms" = Some "TokenManagementSystem".
Proof.
  edestruct (QueryNamespaceDefinitions_labels public_foreign)
    as (labels & Hquery & _ & Hlabels); [vm_compute; reflexivity|].
  exists labels. split; [exact Hquery|]. split.
  - eapply Hlabels; [vm_compute; reflexivity | reflexivity].
  - eapply (Hlabels "tms" {| Datatype := "TokenManagementSystem"; Fields := [] |});
      [vm_compute; reflexivity | discriminate].
Defined.

(** ** Concrete runs of the further properties *)

(** X1 on two parameter sets that differ in [InitRequired] only. *)
Lemma ChaincodeParameters_Equal_equivalence_witness :
  ChaincodeParameters_Equal
    (Parameters (definition_with_InitRequired false mycc_v1))
    (Parameters mycc_v1) = None.
Proof.
  apply (proj1 (proj2 (ChaincodeParameters_Equal_equivalence (CCP := list string)))).
  vm_compute. reflexivity.
Defined.

(** X2 on scenario D with and without the [InitRequired] flag. *)
Lemma ChaincodeParameters_Equal_compared_fields_witness :
  ChaincodeParameters_Equal (Parameters mycc_v1) (Parameters mycc_v1_other)
  = ChaincodeParameters_Equal
      (Parameters (definition_with_InitRequired false mycc_v1))
      (Parameters (definition_with_InitRequired false mycc_v1_other)).
Proof.
  apply ChaincodeParameters_Equal_compared_fields; repeat split; reflexivity.
Defined.

(** X4 on the committed namespace of scenario A. *)
Lemma ChaincodeDefinitionIfDefined_QueryChaincodeDefinition_witness :
  ∃ definedChaincode,
    Some mycc_v1 = Some definedChaincode ∧ (None : option error) = None
    ∧ QueryChaincodeDefinition "mycc" public_v1 = Ok definedChaincode.
Proof.
  destruct (ChaincodeDefinitionIfDefined_QueryChaincodeDefinition
              lifecycle_name "mycc" public_v1) as [Hdefined _]; [discriminate|].
  apply Hdefined. vm_compute. reflexivity.
Defined.

(** X5 on the approval of sequence 2 while sequence 1 is committed. *)
Lemma ApproveChaincodeDefinitionForOrg_accepted_sequence_witness :
  ∃ currentSequence,
    DeserializeFieldAsInt64 NamespacesName "mycc" "Sequence" public_v1
      = Ok currentSequence
    ∧ (currentSequence ≤ 2 ≤ add64 currentSequence 1)%Z
    ∧ ¬ (2 = 0 ∧ currentSequence = 0)%Z
    ∧ (int64_range currentSequence →
       (currentSequence < int64_max)%Z
       ∧ (2 = currentSequence ∨ 2 = currentSequence + 1)%Z
       ∧ ((0 ≤ currentSequence)%Z → (1 ≤ 2)%Z)).
Proof.
  apply (ApproveChaincodeDefinitionForOrg_accepted_sequence
           "mycc" mycc_v2 (Some [xab]) public_v1 org1_v1 org1_v2).
  vm_compute. reflexivity.
Defined.

(** X6 on the approval of sequence 2 while sequence 1 is committed. *)
Lemma ApproveChaincodeDefinitionForOrg_next_sequence_witness :
  (ApproveChaincodeDefinitionForOrg "mycc" mycc_v2 (Some [xab]) public_v1
     org1_v1).1
    = (approval_writes "mycc" mycc_v2 (Some [xab]) org1_v1).1
  ∧ ((ApproveChaincodeDefinitionForOrg "mycc" mycc_v2 (Some [xab]) public_v1
        org1_v1).2 = None
     ↔ (approval_writes "mycc" mycc_v2 (Some [xab]) org1_v1).2 = None).
Proof.
  apply (ApproveChaincodeDefinitionForOrg_next_sequence
           "mycc" mycc_v2 (Some [xab]) public_v1 org1_v1 1).
  - vm_compute. reflexivity.
  - unfold int64_range, int64_min, int64_max. simpl. lia.
  - unfold int64_max. simpl. lia.
  - reflexivity.
Defined.

(** X7 on approvals at the largest sequence: of that sequence itself and of
    sequence 1. *)
Lemma ApproveChaincodeDefinitionForOrg_at_largest_sequence_witness :
  (∃ err,
     ApproveChaincodeDefinitionForOrg "mycc" mycc_at_max None public_at_max
       empty_state = (empty_state, Some err))
  ∧ (∃ err,
       ApproveChaincodeDefinitionForOrg "mycc" mycc_v1 None public_at_max
         empty_state = (empty_state, Some err)).
Proof.
  split; apply ApproveChaincodeDefinitionForOrg_at_largest_sequence;
    try (vm_compute; reflexivity);
    unfold int64_range; split; apply Z.leb_le; vm_compute; reflexivity.
Defined.

(** X9 on scenario D. *)
Lemma ApproveChaincodeDefinitionForOrg_mismatch_witness :
  ∃ msg,
    ChaincodeParameters_Equal (Parameters mycc_v1) (Parameters mycc_v1_other)
      = Some (Errorf msg)
    ∧ ApproveChaincodeDefinitionForOrg "mycc" mycc_v1_other (Some [xab])
        public_v1 org1_v1
      = (org1_v1,
         Some (WithMessage (Errorf msg)
                 "attempted to define the current sequence (%d) for namespace %s, but")).
Proof.
  apply (ApproveChaincodeDefinitionForOrg_mismatch
           "mycc" mycc_v1_other (Some [xab]) public_v1 org1_v1
           {| Datatype := "ChaincodeDefinition";
              Fields := ["Sequence"; "EndorsementInfo"; "ValidationInfo";
                         "Collections"] |} mycc_v1).
  - vm_compute. reflexivity.
  - discriminate.
  - unfold int64_range, int64_min, int64_max. simpl. lia.
  - unfold int64_max. simpl. lia.
  - vm_compute. reflexivity.
  - vm_compute. reflexivity.
  - intros [Hversion _]. vm_compute in Hversion. discriminate.
Defined.

(** X10 on the re-approval of the committed sequence 1 with [InitRequired]
    switched off. *)
Lemma ApproveChaincodeDefinitionForOrg_InitRequired_witness :
  (ApproveChaincodeDefinitionForOrg "mycc"
     (definition_with_InitRequired false mycc_v1) None public_v1 org1_v1).2
  = None.
Proof.
  apply (ApproveChaincodeDefinitionForOrg_InitRequired
           "mycc" mycc_v1 false None public_v1 org1_v1
           {| Datatype := "ChaincodeDefinition";
              Fields := ["Sequence"; "EndorsementInfo"; "ValidationInfo";
                         "Collections"] |} mycc_v1).
  - vm_compute. reflexivity.
  - discriminate.
  - unfold int64_range, int64_min, int64_max. simpl. lia.
  - unfold int64_max. simpl. lia.
  - vm_compute. reflexivity.
  - vm_compute. reflexivity.
  - by repeat split.
  - vm_compute. reflexivity.
Defined.

(** X11 on the commit of scenario A. *)
Lemma CommitChaincodeDefinition_accepted_witness :
  ∃ currentSequence,
    DeserializeFieldAsInt64 NamespacesName "mycc" "Sequence" empty_state
      = Ok currentSequence
    ∧ Sequence mycc_v1 = add64 currentSequence 1
    ∧ Serialize NamespacesName "mycc" (SDefinition mycc_v1) empty_state
      = (public_v1, None)
    ∧ [true]
      = (agrees (private_name "mycc" (Sequence mycc_v1)) (Parameters mycc_v1)
           <$> [org1_v1]).
Proof.
  apply CommitChaincodeDefinition_accepted. vm_compute. reflexivity.
Defined.

(** X12 on scenario A: sequence 1 cannot be committed a second time, and
    sequence 3 cannot follow it. *)
Lemma CommitChaincodeDefinition_no_recommit_witness :
  (∃ err,
     CommitChaincodeDefinition "mycc" mycc_v1_other public_v1 [org1_v1]
     = (public_v1, Err err))
  ∧ (∃ err,
       CommitChaincodeDefinition "mycc" mycc_v3 public_v1 []
       = (public_v1, Err err)).
Proof.
  split;
    apply (CommitChaincodeDefinition_no_recommit
             "mycc" mycc_v1 empty_state [org1_v1] public_v1 [true]
             kv_sequence_reads_back);
    try (vm_compute; reflexivity).
  - left. reflexivity.
  - right. vm_compute. discriminate.
Defined.

(** X13 on scenarios A and B in a row, from the undefined namespace. *)
Lemma commit_all_sequence_witness :
  [Sequence mycc_v1; Sequence mycc_v2] = seqZ (0 + 1) 2
  ∧ DeserializeFieldAsInt64 NamespacesName "mycc" "Sequence" public_v2
    = Ok (0 + 2)%Z.
Proof.
  apply (commit_all_sequence "mycc"
           [(mycc_v1, [org1_v1]); (mycc_v2, [org1_v2; empty_state])]
           kv_sequence_reads_back empty_state public_v2 0).
  - vm_compute. reflexivity.
  - unfold int64_range, int64_min, int64_max. simpl. lia.
  - unfold int64_max. simpl. lia.
  - vm_compute. reflexivity.
Defined.

(** X14 on scenario B, one organisation at a time. *)
Lemma CommitChaincodeDefinition_agreement_app_witness :
  ∃ agreement1 agreement2,
    [true; false] = agreement1 ++ agreement2
    ∧ CommitChaincodeDefinition "mycc" mycc_v2 public_v1 [org1_v2]
      = (public_v2, Ok agreement1)
    ∧ CommitChaincodeDefinition "mycc" mycc_v2 public_v1 [empty_state]
      = (public_v2, Ok agreement2).
Proof.
  apply (CommitChaincodeDefinition_agreement_app
           "mycc" mycc_v2 public_v1 [org1_v2] [empty_state]).
  vm_compute. reflexivity.
Defined.

(** X15 at the largest sequence: the next positive sequence does not exist,
    the smallest [int64] is accepted. *)
Lemma CommitChaincodeDefinition_at_largest_sequence_witness :
  (∃ err,
     CommitChaincodeDefinition "mycc" mycc_at_max public_at_max []
     = (public_at_max, Err err))
  ∧ is_Ok (CommitChaincodeDefinition "mycc" mycc_at_min public_at_max []).2
    = true.
Proof.
  destruct (CommitChaincodeDefinition_at_largest_sequence
              "mycc" mycc_at_max public_at_max [])
    as [Hrefused _]; [vm_compute; reflexivity|].
  destruct (CommitChaincodeDefinition_at_largest_sequence
              "mycc" mycc_at_min public_at_max [])
    as [_ Haccepted]; [vm_compute; reflexivity|].
  split.
  - apply Hrefused. vm_compute. discriminate.
  - apply Haccepted; [reflexivity | vm_compute; reflexivity].
Defined.

(** X16 on a public state with a chaincode and a namespace tagged
    [Chaincode]. *)
Lemma QueryNamespaceDefinitions_friendly_name_witness :
  ∃ labels : gmap string string,
    QueryNamespaceDefinitions public_namesake = Ok labels
    ∧ labels !! "mycc" = Some "Chaincode"
    ∧ labels !! "other" = Some "Chaincode".
Proof.
  edestruct (QueryNamespaceDefinitions_friendly_name public_namesake)
    as (labels & Hquery & Hlabels); [vm_compute; reflexivity|].
  exists labels. split; [exact Hquery|]. split; apply Hlabels.
  - eexists. split; [vm_compute; reflexivity|]. left. reflexivity.
  - eexists. split; [vm_compute; reflexivity|]. right. reflexivity.
Defined.

(** X19 on scenario B: Org1, which approved sequence 2, agrees at its
    position among three organisations. *)
Lemma approved_organisation_agrees_witness :
  ∃ agreement,
    (CommitChaincodeDefinition "mycc" mycc_v2 public_v1
       ([empty_state] ++ id org1_v2 :: [empty_state])).2 = Ok agreement
    ∧ agreement !! 1%nat = Some true.
Proof.
  assert (ApproveChaincodeDefinitionForOrg "mycc" mycc_v2 (Some [xab])
            public_v1 org1_v1 = (org1_v2, None)) as Happrove
    by (vm_compute; reflexivity).
  assert (CommitChaincodeDefinition "mycc" mycc_v2 public_v1
            ([empty_state] ++ id org1_v2 :: [empty_state])
          = (public_v2, Ok [false; true; false])) as Hcommit
    by (vm_compute; reflexivity).
  exists [false; true; false]. split; [by rewrite Hcommit|].
  exact (approved_organisation_agrees id _ _ _ _ _ _
           kv_writes_read_back kv_sources_apart Happrove
           _ _ [empty_state] [empty_state] _ Hcommit).
Defined.

(** X20 on scenario B. *)
Lemma committed_definition_is_defined_witness :
  QueryChaincodeDefinition "mycc" public_v2 = Ok mycc_v2
  ∧ ChaincodeDefinitionIfDefined lifecycle_name "mycc" public_v2
    = (true, Some mycc_v2, None).
Proof.
  assert (CommitChaincodeDefinition "mycc" mycc_v2 public_v1
            [org1_v2; empty_state] = (public_v2, Ok [true; false])) as Hcommit
    by (vm_compute; reflexivity).
  destruct (committed_definition_is_defined lifecycle_name _ _ _ _ _ _
              kv_definition_reads_back Hcommit) as [Hquery Hdefined].
  split; [exact Hquery|]. apply Hdefined. discriminate.
Defined.

(** X21 on scenario D and on the re-approval of the committed parameters. *)
Lemma committed_sequence_reapproval_witness :
  (ApproveChaincodeDefinitionForOrg "mycc" mycc_v1 (Some [xab]) public_v1
     empty_state).2 = None
  ∧ (∃ err,
       ApproveChaincodeDefinitionForOrg "mycc" mycc_v1_other None public_v1
         org1_v1 = (org1_v1, Some err)).
Proof.
  assert (CommitChaincodeDefinition "mycc" mycc_v1 empty_state [org1_v1]
          = (public_v1, Ok [true])) as Hcommit by (vm_compute; reflexivity).
  assert (int64_range (Sequence mycc_v1)) as Hrange
    by (unfold int64_range; split; apply Z.leb_le; vm_compute; reflexivity).
  assert (Sequence mycc_v1 < int64_max)%Z as Hmax
    by (apply Z.ltb_lt; vm_compute; reflexivity).
  split.
  - destruct (committed_sequence_reapproval _ _ _ _ _ _
                kv_sequence_reads_back kv_definition_reads_back Hcommit
                ltac:(discriminate) Hrange Hmax
                mycc_v1 (Some [xab]) empty_state eq_refl) as [Hagree _].
    apply Hagree; [by repeat split | vm_compute; reflexivity].
  - destruct (committed_sequence_reapproval _ _ _ _ _ _
                kv_sequence_reads_back kv_definition_reads_back Hcommit
                ltac:(discriminate) Hrange Hmax
                mycc_v1_other None org1_v1 eq_refl) as [_ Hdiffer].
    apply Hdiffer. intros [Hversion _]. vm_compute in Hversion. discriminate.
Defined.
